(** * taskflow action engine: task executors

    A shallow embedding of [taskflow/engines/action_engine/executor.py]:
    the scoped callback binding [_autobind], the two operation runners
    [_execute_task] and [_revert_task], and the serial and parallel task
    executors.

    Python code is embedded in a state-and-exception monad over an explicit
    world: the state the tasks act on, the store of dictionaries the engine
    passes by reference, the futures, the worker pools, and the trace of
    the calls the runners make on a task. *)

From stdpp Require Import gmap strings list.
From Stdlib Require Import ZArith.

Local Open Scope Z_scope.
Local Open Scope string_scope.

(** ** Exceptions *)

(** The classes of the exceptions met in this module.  [except Exception]
    catches the instances of [Exception] and of its subclasses; the classes
    that derive from [BaseException] directly are let through.
    [StopIteration] derives from [Exception] and has a meaning of its own
    in the generator protocol behind [contextlib.contextmanager]; the
    user-defined classes are taken not to derive from it. *)
Inductive exc_class : Type :=
| BaseException
| SystemExit
| KeyboardInterrupt
| GeneratorExit
| Exception
| StopIteration
| AttributeError
| KeyError
| RuntimeError
| TypeError
| UnboundLocalError
| ValueError
| UserDefined (name : string) (derives_Exception : bool).

Definition issubclass_Exception (c : exc_class) : bool :=
  match c with
  | BaseException | SystemExit | KeyboardInterrupt | GeneratorExit => false
  | Exception | StopIteration | AttributeError | KeyError | RuntimeError
  | TypeError | UnboundLocalError | ValueError => true
  | UserDefined _ d => d
  end.

Definition issubclass_StopIteration (c : exc_class) : bool :=
  match c with
  | StopIteration => true
  | _ => false
  end.

(** A raised exception: its class and its message. *)
Record exn : Type := Exn { exc_type : exc_class; exc_message : string }.

Definition isinstance_Exception (e : exn) : bool :=
  issubclass_Exception (exc_type e).

Definition isinstance_StopIteration (e : exn) : bool :=
  issubclass_StopIteration (exc_type e).

(** ** Values *)

Definition loc := nat.

(** Modelled from the spec: [misc.Failure] (taskflow.utils.misc is not part
    of the sources at hand).  A Failure is an immutable value capturing the
    exception being handled when it is constructed; two failures are equal
    iff the captured identity matches.  [VFailure e] is the value that
    [misc.Failure()] builds inside a handler of [e]. *)
Inductive value : Type :=
| VNone
| VInt (z : Z)
| VStr (s : string)
| VFailure (e : exn)
| VRef (l : loc).

(** A dict with string keys, as [**kwargs] requires. *)
Abbreviation dict := (gmap string value).

(** The result of running a piece of Python: a value, or an exception on
    its way up. *)
Inductive res (A : Type) : Type :=
| Ret (a : A)
| Raise (e : exn).
Arguments Ret {A} a.
Arguments Raise {A} e.

(** Progress callbacks are opaque function objects; [_noop] is the default
    of the executors' [progress_callback] parameter. *)
Inductive callback : Type :=
| _noop
| Callback (id : nat).

Inductive future_state : Type := PENDING | RUNNING | FINISHED.

Section Executor.

(** The state the tasks live in: their attributes (the callback table among
    them) and whatever else their methods read and write.  The dictionaries
    of the engine are not part of it: a task receives its arguments
    unpacked ([**arguments]), never the caller's dict. *)
Variable E : Type.

(** [threading_utils.get_optimal_thread_count()]; its formula is not part
    of this module. *)
Variable get_optimal_thread_count : nat.

(** ** Tasks *)

(** A task is an external collaborator: an object with four methods, each
    of which may return or raise, and may change the tasks' state. *)
Record Task : Type := {
  task_name : string;
  bind : string -> callback -> E -> res unit * E;
  unbind : string -> callback -> E -> res unit * E;
  execute : dict -> E -> res value * E;
  revert : dict -> E -> res value * E
}.

(** The calls a runner makes on a task, in order. *)
Inductive event : Type :=
| CallBind (t : Task) (bind_name : string) (bind_func : callback)
| CallUnbind (t : Task) (bind_name : string) (bind_func : callback)
| CallExecute (t : Task) (kwargs : dict)
| CallRevert (t : Task) (kwargs : dict).

Definition is_bind (ev : event) : bool :=
  match ev with CallBind _ _ _ => true | _ => false end.

Definition is_unbind (ev : event) : bool :=
  match ev with CallUnbind _ _ _ => true | _ => false end.

Definition bind_count (tr : list event) : nat := length (filter is_bind tr).
Definition unbind_count (tr : list event) : nat :=
  length (filter is_unbind tr).

(** The payload of a future: [(task, verb, result)]. *)
Definition outcome : Type := Task * string * value.

(** [concurrent.futures.Future]: a state and, once finished, the result or
    the exception of the call. *)
Record Future : Type := {
  _state : future_state;
  _result : option outcome;
  _exception : option exn
}.

Definition pending : Future :=
  {| _state := PENDING; _result := None; _exception := None |}.

(** The callable and arguments handed to a pool by [submit]. *)
Inductive work : Type :=
| Work_execute_task (task : Task) (arguments : loc)
    (progress_callback : callback)
| Work_revert_task (task : Task) (arguments : loc) (result : value)
    (failures : value) (progress_callback : callback).

(** A worker pool with the interface of [concurrent.futures.Executor]: its
    size, the shutdown flag, and the work items submitted so far, each with
    the future that [submit] returned for it.  How the worker threads
    interleave is left out; [_WorkItem_run] below is what one worker does
    with one item. *)
Record Pool : Type := {
  _max_workers : nat;
  _shutdown : bool;
  _work_queue : list (loc * work)
}.

(** The last field is the interpreter the code runs on: whether a
    [StopIteration] that leaves the body of a generator is turned into a
    [RuntimeError] (PEP 479: so from Python 3.7 on, and not on the Python
    2.6 to 3.6 interpreters).  Nothing ever changes it. *)
Record world : Type := World {
  env : E;
  heap : gmap loc dict;
  futs : gmap loc Future;
  pools : gmap loc Pool;
  trace : list event;
  generator_stop : bool
}.

Definition set_env (e : E) (w : world) : world :=
  World e (heap w) (futs w) (pools w) (trace w) (generator_stop w).
Definition set_heap (h : gmap loc dict) (w : world) : world :=
  World (env w) h (futs w) (pools w) (trace w) (generator_stop w).
Definition set_futs (f : gmap loc Future) (w : world) : world :=
  World (env w) (heap w) f (pools w) (trace w) (generator_stop w).
Definition set_pools (p : gmap loc Pool) (w : world) : world :=
  World (env w) (heap w) (futs w) p (trace w) (generator_stop w).
Definition log (ev : event) (w : world) : world :=
  World (env w) (heap w) (futs w) (pools w) (trace w ++ [ev])
    (generator_stop w).

(** ** The monad of Python computations *)

Definition M (A : Type) : Type := world -> res A * world.

#[export] Instance M_ret : MRet M := fun A a w => (Ret a, w).

#[export] Instance M_bind : MBind M := fun A B f m w =>
  match m w with
  | (Ret a, w') => f a w'
  | (Raise e, w') => (Raise e, w')
  end.

Definition raise {A} (e : exn) : M A := fun w => (Raise e, w).

(** [try: body / except Exception: handler] *)
Definition try_except_Exception {A} (body : M A) (handler : exn -> M A)
  : M A := fun w =>
  match body w with
  | (Ret a, w') => (Ret a, w')
  | (Raise e, w') =>
      if isinstance_Exception e then handler e w' else (Raise e, w')
  end.

(** Reading a name that refers to no object cannot happen in Python; the
    embedding stops there with an exception no handler of this module
    catches. *)
Definition dangling : exn := Exn (UserDefined "dangling reference" false) "".

(** ** Method calls on a task, recorded in the trace *)

(** [task.method(...)]: the method runs on the tasks' state, and the call
    is appended to the trace, whether it returns or raises. *)
Definition method_call {A} (method : E -> res A * E) (ev : event) : M A :=
  fun w =>
  let (r, e) := method (env w) in
  (r, set_env e (log ev w)).

Definition call_bind (task : Task) (bind_name : string)
    (bind_func : callback) : M unit :=
  method_call (bind task bind_name bind_func)
    (CallBind task bind_name bind_func).

Definition call_unbind (task : Task) (bind_name : string)
    (bind_func : callback) : M unit :=
  method_call (unbind task bind_name bind_func)
    (CallUnbind task bind_name bind_func).

(** [**arguments]: the callee gets the items of the dict, not the dict. *)
Definition unpack (arguments : loc) : M dict := fun w =>
  match heap w !! arguments with
  | Some d => (Ret d, w)
  | None => (Raise dangling, w)
  end.

Definition call_execute (task : Task) (arguments : loc) : M value :=
  kwargs ← unpack arguments;
  method_call (execute task kwargs) (CallExecute task kwargs).

Definition call_revert (task : Task) (arguments : loc) : M value :=
  kwargs ← unpack arguments;
  method_call (revert task kwargs) (CallRevert task kwargs).

(** [arguments.copy()]: a new dict with the same items. *)
Definition dict_copy (arguments : loc) : M loc := fun w =>
  match heap w !! arguments with
  | Some d =>
      let l := fresh (dom (heap w)) in
      (Ret l, set_heap (<[l := d]> (heap w)) w)
  | None => (Raise dangling, w)
  end.

(** [d[key] = v] *)
Definition dict_setitem (d : loc) (key : string) (v : value) : M unit :=
  fun w =>
  match heap w !! d with
  | Some items => (Ret (), set_heap (<[d := <[key := v]> items]> (heap w)) w)
  | None => (Raise dangling, w)
  end.

(** ** The scoped callback binding and the operation runners *)

(** [_autobind] is a generator wrapped by [contextlib.contextmanager]:

      try:
          task.bind(bind_name, bind_func, **kwargs)
          yield task
      finally:
          task.unbind(bind_name, bind_func)

    The [with] statement runs the generator up to its [yield]
    ([__enter__]), then the block, then resumes the generator ([__exit__]):
    normally when the block ended normally, and with the exception of the
    block thrown in at the [yield] otherwise.  Either way the [finally]
    clause runs [unbind]. *)

(** What [next] and [throw] raise when [e] leaves the body of the
    generator (PEP 479). *)
Definition leaves_generator (pep479 : bool) (e : exn) : exn :=
  if pep479 && isinstance_StopIteration e
  then Exn RuntimeError "generator raised StopIteration"
  else e.

(** [GeneratorContextManager.__enter__]: [next(gen)].  When [bind]
    returns, the generator stops at the [yield].  When [bind] raises,
    [unbind] runs and an exception leaves the generator, that of [unbind]
    if it raises and that of [bind] otherwise; a [StopIteration] coming
    out of [next] is answered with RuntimeError("generator didn't
    yield"). *)
Definition _autobind__enter__ (task : Task) (bind_name : string)
    (bind_func : callback) : M unit := fun w =>
  match call_bind task bind_name bind_func w with
  | (Ret _, w1) => (Ret (), w1)
  | (Raise eb, w1) =>
      let (ru, w2) := call_unbind task bind_name bind_func w1 in
      let e :=
        leaves_generator (generator_stop w)
          match ru with Ret _ => eb | Raise eu => eu end in
      (Raise (if isinstance_StopIteration e
              then Exn RuntimeError "generator didn't yield"
              else e),
       w2)
  end.

(** How the [with] statement ends, from how its block ended ([r]) and how
    [unbind] ended ([ru]) when the generator was resumed.  When [unbind]
    returns, the generator ends as the block did, and so does the
    statement.  When [unbind] raises, its exception leaves the generator
    and is raised by [__exit__], except a [StopIteration] that is still one
    after [leaves_generator]: [__exit__] takes it for the regular end of
    the generator, so that the statement ends normally, with [Some] value
    when the block had one and with [None] when the block had raised (its
    exception is suppressed). *)
Definition with_result {A} (pep479 : bool) (r : res A) (ru : res unit)
  : res (option A) :=
  match ru with
  | Ret _ =>
      match r with
      | Ret a => Ret (Some a)
      | Raise x => Raise x
      end
  | Raise eu =>
      let e := leaves_generator pep479 eu in
      if isinstance_StopIteration e then
        match r with
        | Ret a => Ret (Some a)
        | Raise _ => Ret None
        end
      else Raise e
  end.

(** [GeneratorContextManager.__exit__], given how the block ended:
    [next(gen)] or [gen.throw(...)]. *)
Definition _autobind__exit__ {A} (task : Task) (bind_name : string)
    (bind_func : callback) (r : res A) : M (option A) := fun w =>
  let (ru, w1) := call_unbind task bind_name bind_func w in
  (with_result (generator_stop w) r ru, w1).

(** [with _autobind(task, bind_name, bind_func): body].  The value is
    that of the block, or [None] when the statement ended normally without
    the block having ended so. *)
Definition _autobind {A} (task : Task) (bind_name : string)
    (bind_func : callback) (body : Task -> M A) : M (option A) := fun w =>
  match _autobind__enter__ task bind_name bind_func w with
  | (Ret _, w1) =>
      let (r, w2) := body task w1 in
      _autobind__exit__ task bind_name bind_func r w2
  | (Raise e, w1) => (Raise e, w1)
  end.

(** Reading the local variable [result] after the [with] statement: the
    value the block assigned, and else what the variable held before. *)
Definition read_result (assigned : option value) (before : M value)
  : M value :=
  match assigned with
  | Some v => mret v
  | None => before
  end.

(** In [_execute_task], [result] is assigned in the block only. *)
Definition _execute_task (task : Task) (arguments : loc)
    (progress_callback : callback) : M outcome :=
  assigned ← _autobind task "update_progress" progress_callback (fun _ =>
    try_except_Exception
      (call_execute task arguments)
      (fun e => mret (VFailure e)));
  result ← read_result assigned
    (raise (Exn UnboundLocalError
              "local variable 'result' referenced before assignment"));
  mret (task, "executed", result).

(** In [_revert_task], [result] is a parameter, which the block assigns
    anew. *)
Definition _revert_task (task : Task) (arguments : loc) (result : value)
    (failures : value) (progress_callback : callback) : M outcome :=
  kwargs ← dict_copy arguments;
  dict_setitem kwargs "result" result;;
  dict_setitem kwargs "flow_failures" failures;;
  assigned ← _autobind task "update_progress" progress_callback (fun _ =>
    try_except_Exception
      (call_revert task kwargs)
      (fun e => mret (VFailure e)));
  result ← read_result assigned (mret result);
  mret (task, "reverted", result).

(** ** Futures and worker pools (concurrent.futures) *)

(** [futures.Future()]: a new pending future. *)
Definition Future_new : M loc := fun w =>
  let f := fresh (dom (futs w)) in
  (Ret f, set_futs (<[f := pending]> (futs w)) w).

(** [future.set_result(result)] *)
Definition set_result (future : loc) (result : outcome) : M unit := fun w =>
  match futs w !! future with
  | Some _ =>
      (Ret (),
       set_futs (<[future := {| _state := FINISHED; _result := Some result;
                                _exception := None |}]> (futs w)) w)
  | None => (Raise dangling, w)
  end.

(** [future.set_exception(e)] *)
Definition set_exception (future : loc) (e : exn) : M unit := fun w =>
  match futs w !! future with
  | Some _ =>
      (Ret (),
       set_futs (<[future := {| _state := FINISHED; _result := None;
                                _exception := Some e |}]> (futs w)) w)
  | None => (Raise dangling, w)
  end.

(** [future.set_running_or_notify_cancel()] on a future that nobody
    cancels: a pending future starts running. *)
Definition set_running (future : loc) : M unit := fun w =>
  match futs w !! future with
  | Some {| _state := PENDING |} =>
      (Ret (),
       set_futs (<[future := {| _state := RUNNING; _result := None;
                                _exception := None |}]> (futs w)) w)
  | Some _ => (Raise (Exn RuntimeError "Future in unexpected state"), w)
  | None => (Raise dangling, w)
  end.

(** [future.done()] *)
Definition done (w : world) (future : loc) : bool :=
  match futs w !! future with
  | Some {| _state := FINISHED |} => true
  | _ => false
  end.

(** [futures.ThreadPoolExecutor(max_workers)]: a new pool, accepting work. *)
Definition ThreadPoolExecutor (max_workers : nat) : M loc := fun w =>
  let p := fresh (dom (pools w)) in
  (Ret p,
   set_pools (<[p := {| _max_workers := max_workers; _shutdown := false;
                        _work_queue := [] |}]> (pools w)) w).

(** [pool.submit(fn, *args)]: refused once the pool is shut down; otherwise
    the work item is queued and its pending future returned. *)
Definition submit (pool : loc) (wk : work) : M loc := fun w =>
  match pools w !! pool with
  | Some p =>
      if _shutdown p then
        (Raise (Exn RuntimeError "cannot schedule new futures after shutdown"),
         w)
      else
        let f := fresh (dom (futs w)) in
        (Ret f,
         set_pools
           (<[pool := {| _max_workers := _max_workers p; _shutdown := false;
                         _work_queue := _work_queue p ++ [(f, wk)] |}]>
              (pools w))
           (set_futs (<[f := pending]> (futs w)) w))
  | None => (Raise dangling, w)
  end.

(** [pool.shutdown(wait=True)]: the pool takes no more work.  The call
    also waits for the workers to finish the queued items, which is their
    business ([_WorkItem_run]) and not repeated here. *)
Definition shutdown (pool : loc) : M unit := fun w =>
  match pools w !! pool with
  | Some p =>
      (Ret (),
       set_pools
         (<[pool := {| _max_workers := _max_workers p; _shutdown := true;
                       _work_queue := _work_queue p |}]> (pools w)) w)
  | None => (Raise dangling, w)
  end.

(** A pool is usable when [submit] on it returns a future. *)
Definition usable (w : world) (pool : loc) : Prop :=
  forall wk, exists f w', submit pool wk w = (Ret f, w').

(** [None.name]: attribute access on [None]. *)
Definition NoneType_has_no_attribute (name : string) : exn :=
  Exn AttributeError
    ("'NoneType' object has no attribute '" ++ name ++ "'").

(** The call a work item stands for, as a worker would make it. *)
Definition run_work (wk : work) : M outcome :=
  match wk with
  | Work_execute_task task arguments progress_callback =>
      _execute_task task arguments progress_callback
  | Work_revert_task task arguments result failures progress_callback =>
      _revert_task task arguments result failures progress_callback
  end.

(** The result of [call] or, whatever its class, its exception is stored
    in [future]. *)
Definition settle (future : loc) (call : M outcome) : M unit := fun w =>
  match call w with
  | (Ret result, w') => set_result future result w'
  | (Raise e, w') => set_exception future e w'
  end.

(** [_WorkItem.run] of concurrent.futures, as a worker thread calls it on
    a queued item and its future. *)
Definition _WorkItem_run (future : loc) (wk : work) : M unit :=
  set_running future;;
  settle future (run_work wk).

(** ** TaskExecutorBase: the default lifecycle methods *)

Definition TaskExecutorBase_start {Self : Type} (self : Self) : M Self :=
  mret self.

Definition TaskExecutorBase_stop {Self : Type} (self : Self) : M Self :=
  mret self.

(** ** SerialTaskExecutor *)

(** The serial executor has no attributes. *)
Inductive SerialTaskExecutor : Type := SerialTaskExecutor__init__.

Definition _completed_future (result : outcome) : M loc :=
  future ← Future_new;
  set_result future result;;
  mret future.

Definition SerialTaskExecutor_execute_task (self : SerialTaskExecutor)
    (task : Task) (arguments : loc) (progress_callback : callback) : M loc :=
  result ← _execute_task task arguments progress_callback;
  _completed_future result.

Definition SerialTaskExecutor_revert_task (self : SerialTaskExecutor)
    (task : Task) (arguments : loc) (result : value) (failures : value)
    (progress_callback : callback) : M loc :=
  result ← _revert_task task arguments result failures progress_callback;
  _completed_future result.

Definition SerialTaskExecutor_wait_for_any (self : SerialTaskExecutor)
    (fs : list loc) : M (list loc * list loc) :=
  mret (fs, []).

Definition SerialTaskExecutor_start :
    SerialTaskExecutor -> M SerialTaskExecutor :=
  TaskExecutorBase_start.

Definition SerialTaskExecutor_stop :
    SerialTaskExecutor -> M SerialTaskExecutor :=
  TaskExecutorBase_stop.

(** ** ParallelTaskExecutor *)

(** [wait_for_any] of the parallel executor is [futures.wait] with
    [FIRST_COMPLETED]: it blocks on the worker threads and has no
    counterpart here. *)

Record ParallelTaskExecutor : Type := {
  _executor : option loc;
  _own_executor : bool
}.

Definition ParallelTaskExecutor__init__ (executor : option loc)
  : ParallelTaskExecutor :=
  {| _executor := executor;
     _own_executor := match executor with None => true | Some _ => false end |}.

Definition ParallelTaskExecutor_execute_task (self : ParallelTaskExecutor)
    (task : Task) (arguments : loc) (progress_callback : callback) : M loc :=
  match _executor self with
  | Some pool => submit pool (Work_execute_task task arguments progress_callback)
  | None => raise (NoneType_has_no_attribute "submit")
  end.

Definition ParallelTaskExecutor_revert_task (self : ParallelTaskExecutor)
    (task : Task) (arguments : loc) (result : value) (failures : value)
    (progress_callback : callback) : M loc :=
  match _executor self with
  | Some pool =>
      submit pool
        (Work_revert_task task arguments result failures progress_callback)
  | None => raise (NoneType_has_no_attribute "submit")
  end.

Definition ParallelTaskExecutor_start (self : ParallelTaskExecutor)
  : M ParallelTaskExecutor :=
  if _own_executor self then
    let thread_count := get_optimal_thread_count in
    pool ← ThreadPoolExecutor thread_count;
    mret {| _executor := Some pool; _own_executor := _own_executor self |}
  else mret self.

Definition ParallelTaskExecutor_stop (self : ParallelTaskExecutor)
  : M ParallelTaskExecutor :=
  if _own_executor self then
    match _executor self with
    | Some pool => shutdown pool
    | None => raise (NoneType_has_no_attribute "shutdown")
    end;;
    mret {| _executor := None; _own_executor := _own_executor self |}
  else mret self.

End Executor.

Arguments Build_Task {E}.
Arguments task_name {E}.
Arguments bind {E}.
Arguments unbind {E}.
Arguments execute {E}.
Arguments revert {E}.
Arguments CallBind {E}.
Arguments CallUnbind {E}.
Arguments CallExecute {E}.
Arguments CallRevert {E}.
Arguments is_bind {E}.
Arguments is_unbind {E}.
Arguments bind_count {E}.
Arguments unbind_count {E}.
Arguments Build_Future {E}.
Arguments _state {E}.
Arguments _result {E}.
Arguments _exception {E}.
Arguments pending {E}.
Arguments Work_execute_task {E}.
Arguments Work_revert_task {E}.
Arguments Build_Pool {E}.
Arguments _max_workers {E}.
Arguments _shutdown {E}.
Arguments _work_queue {E}.
Arguments World {E}.
Arguments env {E}.
Arguments heap {E}.
Arguments futs {E}.
Arguments pools {E}.
Arguments trace {E}.
Arguments generator_stop {E}.
Arguments set_env {E}.
Arguments set_heap {E}.
Arguments set_futs {E}.
Arguments set_pools {E}.
Arguments log {E}.
Arguments raise {E A}.
Arguments try_except_Exception {E A}.
Arguments method_call {E A}.
Arguments call_bind {E}.
Arguments call_unbind {E}.
Arguments unpack {E}.
Arguments call_execute {E}.
Arguments call_revert {E}.
Arguments dict_copy {E}.
Arguments dict_setitem {E}.
Arguments _autobind__enter__ {E}.
Arguments _autobind__exit__ {E A}.
Arguments _autobind {E A}.
Arguments read_result {E}.
Arguments _execute_task {E}.
Arguments _revert_task {E}.
Arguments Future_new {E}.
Arguments set_result {E}.
Arguments set_exception {E}.
Arguments set_running {E}.
Arguments settle {E}.
Arguments _WorkItem_run {E}.
Arguments done {E}.
Arguments ThreadPoolExecutor {E}.
Arguments submit {E}.
Arguments shutdown {E}.
Arguments usable {E}.
Arguments run_work {E}.
Arguments TaskExecutorBase_start {E Self}.
Arguments TaskExecutorBase_stop {E Self}.
Arguments _completed_future {E}.
Arguments SerialTaskExecutor_execute_task {E}.
Arguments SerialTaskExecutor_revert_task {E}.
Arguments SerialTaskExecutor_wait_for_any {E}.
Arguments SerialTaskExecutor_start {E}.
Arguments SerialTaskExecutor_stop {E}.
Arguments ParallelTaskExecutor_execute_task {E}.
Arguments ParallelTaskExecutor_revert_task {E}.
Arguments ParallelTaskExecutor_start {E}.
Arguments ParallelTaskExecutor_stop {E}.

(** ** Sample tasks and worlds *)

(** The state of the sample tasks: a callback table. *)
Definition table : Type := list (string * callback).

(** A task with scripted methods: [bind] registers the callback or raises
    [bind_exc], [unbind] drops the callbacks of that name or raises
    [unbind_exc], [execute] and [revert] end the scripted way. *)
Definition scripted (name : string) (bind_exc : option exn)
    (execute_res revert_res : res value) (unbind_exc : option exn)
  : Task table :=
  {| task_name := name;
     bind := fun bind_name bind_func t =>
       match bind_exc with
       | None => (Ret (), (bind_name, bind_func) :: t)
       | Some e => (Raise e, t)
       end;
     unbind := fun bind_name bind_func t =>
       match unbind_exc with
       | None =>
           (Ret (), filter (fun kv => negb (String.eqb (fst kv) bind_name)) t)
       | Some e => (Raise e, t)
       end;
     execute := fun _ t => (execute_res, t);
     revert := fun _ t => (revert_res, t) |}.

Definition answer_task : Task table :=
  scripted "answer" None (Ret (VInt 42)) (Ret VNone) None.

Definition failing_task : Task table :=
  scripted "failing" None (Raise (Exn ValueError "boom"))
    (Raise (Exn ValueError "boom")) None.

Definition interrupted_task : Task table :=
  scripted "interrupted" None (Raise (Exn KeyboardInterrupt ""))
    (Raise (Exn KeyboardInterrupt "")) None.

Definition sticky_task : Task table :=
  scripted "sticky" None (Ret (VInt 42)) (Ret VNone)
    (Some (Exn RuntimeError "cannot unbind")).

Definition sticky_failing_task : Task table :=
  scripted "sticky_failing" None (Raise (Exn ValueError "boom"))
    (Raise (Exn ValueError "boom")) (Some (Exn RuntimeError "cannot unbind")).

Definition unbindable_task : Task table :=
  scripted "unbindable" (Some (Exn ValueError "unknown event"))
    (Ret (VInt 42)) (Ret VNone) None.

Definition broken_task : Task table :=
  scripted "broken" (Some (Exn ValueError "unknown event"))
    (Ret (VInt 42)) (Ret VNone) (Some (Exn KeyError "update_progress")).

Definition exhausted_task : Task table :=
  scripted "exhausted" (Some (Exn StopIteration "")) (Ret (VInt 42))
    (Ret VNone) None.

Definition stopping_task : Task table :=
  scripted "stopping" None (Ret (VInt 42)) (Ret VNone)
    (Some (Exn StopIteration "")).

Definition interrupted_stopping_task : Task table :=
  scripted "interrupted_stopping" None (Raise (Exn KeyboardInterrupt ""))
    (Raise (Exn KeyboardInterrupt "")) (Some (Exn StopIteration "")).

(** The caller's arguments [{"x": 1}] at address 0; no futures, no pools,
    nothing called yet; an interpreter with PEP 479 in [w0], one without
    in [w0_legacy]. *)
Definition args_x1 : dict := {[ "x" := VInt 1 ]}.

Definition w0 : world table :=
  World [] {[ 0%nat := args_x1 ]} ∅ ∅ [] true.

Definition w0_legacy : world table :=
  World [] {[ 0%nat := args_x1 ]} ∅ ∅ [] false.

(** ** Results of the runners, case by case *)

Section RunnerResults.

Context {E : Type}.

Implicit Types (task : Task E) (w : world E) (cb : callback) (d : dict).

(** What the runners leave alone: dicts, futures and pools. *)
Definition same_stores (w w' : world E) : Prop :=
  heap w' = heap w /\ futs w' = futs w /\ pools w' = pools w.

(** [except Exception: result = misc.Failure()] seen on results. *)
Definition normalized (r : res value) : res value :=
  match r with
  | Ret v => Ret v
  | Raise e => if isinstance_Exception e then Ret (VFailure e) else Raise e
  end.

(** The exception that [__enter__] raises when [bind] raised [eb] and
    [unbind] then ended as [ru]. *)
Definition enter_fault (pep479 : bool) (eb : exn) (ru : res unit) : exn :=
  let e :=
    leaves_generator pep479 match ru with Ret _ => eb | Raise eu => eu end in
  if isinstance_StopIteration e
  then Exn RuntimeError "generator didn't yield"
  else e.

(** What reading [result] gives in [_execute_task] when the block assigned
    nothing. *)
Definition unassigned : res value :=
  Raise (Exn UnboundLocalError
           "local variable 'result' referenced before assignment").

(** The value of a runner whose [bind] returned: the outcome built from
    the result of the block and of the [with] statement around it;
    [before] is what [result] held before the block. *)
Definition runner_result (pep479 : bool) task (verb : string)
    (before : res value) (r : res value) (ru : res unit)
  : res (outcome E) :=
  match with_result pep479 (normalized r) ru with
  | Ret (Some v) => Ret (task, verb, v)
  | Ret None =>
      match before with
      | Ret v => Ret (task, verb, v)
      | Raise e => Raise e
      end
  | Raise e => Raise e
  end.

(** The value of a runner whose [bind] raised [eb]. *)
Definition unbound_result (pep479 : bool) (eb : exn) (ru : res unit)
  : res (outcome E) :=
  Raise (enter_fault pep479 eb ru).

(** The kwargs that [_revert_task] builds from the caller's arguments. *)
Definition revert_kwargs d (result failures : value) : dict :=
  <["flow_failures" := failures]> (<["result" := result]> d).

(** A future resolved with [o]. *)
Definition resolved (o : outcome E) : Future E :=
  {| _state := FINISHED; _result := Some o; _exception := None |}.

End RunnerResults.

(** A lifecycle of two calls on an executor, the second on the state the
    first returns. *)
Definition twice {E Self : Type} (first second : Self -> M E Self)
    (self : Self) : M E Self :=
  s ← first self; second s.

(** ** Sequences of calls *)

(** The calls a user makes on a parallel executor. *)
Inductive call (E : Type) : Type :=
| Call_start
| Call_stop
| Call_execute_task (task : Task E) (arguments : loc)
    (progress_callback : callback)
| Call_revert_task (task : Task E) (arguments : loc) (result : value)
    (failures : value) (progress_callback : callback).
Arguments Call_start {E}.
Arguments Call_stop {E}.
Arguments Call_execute_task {E}.
Arguments Call_revert_task {E}.

(** One call: [start] and [stop] that return leave the executor as the
    method set its attributes, a call that raises leaves them as they were
    (both methods assign [_executor] last), and the submissions do not
    assign any attribute. *)
Definition make_call {E : Type} (get_optimal_thread_count : nat)
    (c : call E) (sw : ParallelTaskExecutor * world E)
  : ParallelTaskExecutor * world E :=
  let (self, w) := sw in
  match c with
  | Call_start =>
      match ParallelTaskExecutor_start get_optimal_thread_count self w with
      | (Ret self', w') => (self', w')
      | (Raise _, w') => (self, w')
      end
  | Call_stop =>
      match ParallelTaskExecutor_stop self w with
      | (Ret self', w') => (self', w')
      | (Raise _, w') => (self, w')
      end
  | Call_execute_task task arguments progress_callback =>
      (self,
       snd (ParallelTaskExecutor_execute_task self task arguments
              progress_callback w))
  | Call_revert_task task arguments result failures progress_callback =>
      (self,
       snd (ParallelTaskExecutor_revert_task self task arguments result
              failures progress_callback w))
  end.

Definition make_calls {E : Type} (get_optimal_thread_count : nat)
    (cs : list (call E)) (sw : ParallelTaskExecutor * world E)
  : ParallelTaskExecutor * world E :=
  fold_left (fun sw c => make_call get_optimal_thread_count c sw) cs sw.

(** What the caller of one call gets back: the future of a submission,
    nothing from [start] and [stop], or an exception. *)
Definition call_returns {E : Type} (get_optimal_thread_count : nat)
    (c : call E) (sw : ParallelTaskExecutor * world E)
  : res (option loc) :=
  let (self, w) := sw in
  match c with
  | Call_start =>
      match fst (ParallelTaskExecutor_start get_optimal_thread_count self w)
      with
      | Ret _ => Ret None
      | Raise e => Raise e
      end
  | Call_stop =>
      match fst (ParallelTaskExecutor_stop self w) with
      | Ret _ => Ret None
      | Raise e => Raise e
      end
  | Call_execute_task task arguments progress_callback =>
      match fst (ParallelTaskExecutor_execute_task self task arguments
                   progress_callback w)
      with
      | Ret f => Ret (Some f)
      | Raise e => Raise e
      end
  | Call_revert_task task arguments result failures progress_callback =>
      match fst (ParallelTaskExecutor_revert_task self task arguments result
                   failures progress_callback w)
      with
      | Ret f => Ret (Some f)
      | Raise e => Raise e
      end
  end.

(** What the caller sees of a sequence of calls. *)
Fixpoint observations {E : Type} (get_optimal_thread_count : nat)
    (cs : list (call E)) (sw : ParallelTaskExecutor * world E)
  : list (res (option loc)) :=
  match cs with
  | [] => []
  | c :: cs =>
      call_returns get_optimal_thread_count c sw ::
      observations get_optimal_thread_count cs
        (make_call get_optimal_thread_count c sw)
  end.

(** The pool an executor holds, if it holds one: its content, not its
    identity. *)
Definition held_pool {E : Type} (sw : ParallelTaskExecutor * world E)
  : option (option (Pool E)) :=
  (fun pool => pools (snd sw) !! pool) <$> _executor (fst sw).

(** Two owning executors, each in its world, that differ at most in the
    identity of the pool they hold and in pools that nothing refers to:
    the pools of [P0], which others may hold, are in both worlds as they
    are in [P0], and everything else is equal. *)
Definition alike {E : Type} (P0 : gmap loc (Pool E))
    (sw1 sw2 : ParallelTaskExecutor * world E) : Prop :=
  let (s1, w1) := sw1 in
  let (s2, w2) := sw2 in
  _own_executor s1 = true /\ _own_executor s2 = true /\
  held_pool sw1 = held_pool sw2 /\
  (forall q, is_Some (P0 !! q) ->
     pools w1 !! q = P0 !! q /\ pools w2 !! q = P0 !! q) /\
  (forall pool, _executor s1 = Some pool \/ _executor s2 = Some pool ->
     P0 !! pool = None) /\
  env w1 = env w2 /\ heap w1 = heap w2 /\ futs w1 = futs w2 /\
  trace w1 = trace w2 /\ generator_stop w1 = generator_stop w2.

(** The runner calls of [wks], made one after the other whatever each of
    them returns or raises. *)
Definition run_works {E : Type} (wks : list (work E)) (w : world E)
  : world E :=
  fold_left (fun w wk => snd (run_work wk w)) wks w.

Definition work_arguments {E : Type} (wk : work E) : loc :=
  match wk with
  | Work_execute_task _ arguments _ => arguments
  | Work_revert_task _ arguments _ _ _ => arguments
  end.


(** Unfolding of the monad and of the calls, for symbolic runs. *)
Ltac run_M :=
  unfold call_execute, call_revert, unpack, method_call,
    try_except_Exception, raise;
  unfold mbind, M_bind, mret, M_ret; cbn.

Ltac finish_run :=
  cbn; unfold set_env, log; cbn; rewrite <- ?app_assoc; reflexivity.

Section RunnerProperties.

Context {E : Type}.

Implicit Types (task : Task E) (w : world E) (cb : callback) (d : dict).

(** [with _autobind(...)], run: bind, then the block unless bind raised,
    then unbind in every case. *)
Lemma _autobind_run {A} task bind_name cb (body : Task E -> M E A) w :
  _autobind task bind_name cb body w =
    let (rb, e1) := bind task bind_name cb (env w) in
    let w1 := set_env e1 (log (CallBind task bind_name cb) w) in
    match rb with
    | Ret _ =>
        let (r, w2) := body task w1 in
        let (ru, e3) := unbind task bind_name cb (env w2) in
        (with_result (generator_stop w2) r ru,
         set_env e3 (log (CallUnbind task bind_name cb) w2))
    | Raise eb =>
        let (ru, e3) := unbind task bind_name cb e1 in
        (Raise (enter_fault (generator_stop w) eb ru),
         set_env e3 (log (CallUnbind task bind_name cb) w1))
    end.
Proof.
  unfold _autobind, _autobind__enter__, _autobind__exit__, call_bind,
    call_unbind, method_call, enter_fault.
  destruct (bind task bind_name cb (env w)) as [[[]|eb] e1]; cbn.
  - destruct (body task _) as [r w2].
    destruct (unbind task bind_name cb (env w2)) as [ru e3]. reflexivity.
  - destruct (unbind task bind_name cb e1) as [ru e3]. reflexivity.
Qed.

(** Case analysis on how the [with] statement ends. *)
Ltac with_cases w eu :=
  unfold runner_result, unbound_result, enter_fault, normalized, with_result,
    leaves_generator, read_result, unassigned, raise, set_env, log;
  cbn;
  try (destruct (generator_stop w) eqn:?;
       destruct (isinstance_StopIteration eu) eqn:Hstop;
       cbn; rewrite ?Hstop; cbn).

(** Symbolic run of [_execute_task] from a world where [arguments] refers
    to the dict [d]. *)
Lemma _execute_task_run task (arguments : loc) cb w d :
  heap w !! arguments = Some d ->
  _execute_task task arguments cb w =
    let name := "update_progress" in
    let (rb, e1) := bind task name cb (env w) in
    match rb with
    | Ret _ =>
        let (rx, e2) := execute task d e1 in
        let (ru, e3) := unbind task name cb e2 in
        (runner_result (generator_stop w) task "executed" unassigned rx ru,
         World e3 (heap w) (futs w) (pools w)
           (trace w ++ [CallBind task name cb; CallExecute task d;
                        CallUnbind task name cb])
           (generator_stop w))
    | Raise eb =>
        let (ru, e2) := unbind task name cb e1 in
        (unbound_result (generator_stop w) eb ru,
         World e2 (heap w) (futs w) (pools w)
           (trace w ++ [CallBind task name cb; CallUnbind task name cb])
           (generator_stop w))
    end.
Proof.
  intros Hd. unfold _execute_task. unfold mbind at 1, M_bind at 1.
  rewrite _autobind_run. cbn zeta.
  destruct (bind task _ cb (env w)) as [[[]|eb] e1].
  - run_M. rewrite Hd; cbn.
    destruct (execute task d e1) as [[v|e] e2]; cbn;
      [|destruct (isinstance_Exception e) eqn:He; cbn];
      destruct (unbind task _ cb e2) as [[[]|eu] e3]; cbn;
      with_cases w eu; rewrite ?He; cbn; finish_run.
  - destruct (unbind task _ cb e1) as [[[]|eu] e2]; cbn;
      with_cases w eu; finish_run.
Qed.

(** Symbolic run of [_revert_task]: the kwargs are built in a new dict
    before the callback is bound. *)
Lemma _revert_task_run task (arguments : loc) (result failures : value)
    cb w d :
  heap w !! arguments = Some d ->
  _revert_task task arguments result failures cb w =
    let name := "update_progress" in
    let kwargs := fresh (dom (heap w)) in
    let kw := revert_kwargs d result failures in
    let h := <[kwargs := kw]> (heap w) in
    let (rb, e1) := bind task name cb (env w) in
    match rb with
    | Ret _ =>
        let (rx, e2) := revert task kw e1 in
        let (ru, e3) := unbind task name cb e2 in
        (runner_result (generator_stop w) task "reverted" (Ret result)
           rx ru,
         World e3 h (futs w) (pools w)
           (trace w ++ [CallBind task name cb; CallRevert task kw;
                        CallUnbind task name cb])
           (generator_stop w))
    | Raise eb =>
        let (ru, e2) := unbind task name cb e1 in
        (unbound_result (generator_stop w) eb ru,
         World e2 h (futs w) (pools w)
           (trace w ++ [CallBind task name cb; CallUnbind task name cb])
           (generator_stop w))
    end.
Proof.
  intros Hd. unfold _revert_task, dict_copy, dict_setitem.
  unfold mbind at 1 2 3 4, M_bind at 1 2 3 4. rewrite Hd. cbn.
  rewrite lookup_insert_eq. cbn. rewrite lookup_insert_eq. cbn.
  rewrite !insert_insert_eq. fold (revert_kwargs d result failures).
  rewrite _autobind_run. cbn.
  destruct (bind task _ cb (env w)) as [[[]|eb] e1].
  - run_M. rewrite lookup_insert_eq; cbn.
    destruct (revert task _ e1) as [[v|e] e2]; cbn;
      [|destruct (isinstance_Exception e) eqn:He; cbn];
      destruct (unbind task _ cb e2) as [[[]|eu] e3]; cbn;
      with_cases w eu; rewrite ?He; cbn; finish_run.
  - destruct (unbind task _ cb e1) as [[[]|eu] e2]; cbn;
      with_cases w eu; finish_run.
Qed.


Lemma _completed_future_run (result : outcome E) w :
  let f := fresh (dom (futs w)) in
  _completed_future result w =
    (Ret f, set_futs (<[f := resolved result]> (futs w)) w).
Proof.
  unfold _completed_future, Future_new, set_result. run_M.
  rewrite lookup_insert_eq. cbn. rewrite insert_insert_eq. reflexivity.
Qed.

(** A completed future is done and holds the result it was given. *)
Lemma _completed_future_done (result : outcome E) w :
  exists f w',
    _completed_future result w = (Ret f, w') /\
    futs w' !! f = Some (resolved result) /\
    done w' f = true.
Proof.
  eexists _, _. split; [apply _completed_future_run|].
  unfold done. cbn. rewrite lookup_insert_eq. auto.
Qed.

(** The serial executor runs the runner inline and wraps what it returns;
    an exception of the runner leaves no future. *)
Lemma SerialTaskExecutor_execute_task_run self task (arguments : loc) cb w :
  SerialTaskExecutor_execute_task self task arguments cb w =
    match _execute_task task arguments cb w with
    | (Ret o, w1) => _completed_future o w1
    | (Raise e, w1) => (Raise e, w1)
    end.
Proof. reflexivity. Qed.

Lemma SerialTaskExecutor_revert_task_run self task (arguments : loc)
    (result failures : value) cb w :
  SerialTaskExecutor_revert_task self task arguments result failures cb w =
    match _revert_task task arguments result failures cb w with
    | (Ret o, w1) => _completed_future o w1
    | (Raise e, w1) => (Raise e, w1)
    end.
Proof. reflexivity. Qed.

(** A runner that returns [o] makes the serial executor return a future
    resolved with [o]. *)
Lemma serial_future_of_outcome (run : M E (outcome E)) (o : outcome E) w w1 :
  run w = (Ret o, w1) ->
  exists f w',
    (o' ← run; _completed_future o') w = (Ret f, w') /\
    futs w' !! f = Some (resolved o) /\ done w' f = true.
Proof.
  intros Hrun. unfold mbind, M_bind. rewrite Hrun.
  apply _completed_future_done.
Qed.

(** The runners neither read nor write the futures and the pools. *)
Lemma _execute_task_frame task (arguments : loc) cb w d
    (F : gmap loc (Future E)) (P : gmap loc (Pool E)) :
  heap w !! arguments = Some d ->
  _execute_task task arguments cb (World (env w) (heap w) F P (trace w) (generator_stop w)) =
    let (r, w') := _execute_task task arguments cb w in
    (r, World (env w') (heap w') F P (trace w') (generator_stop w')).
Proof.
  intros Hd.
  rewrite (_execute_task_run _ _ _ _ _ Hd).
  rewrite (_execute_task_run task arguments cb
             (World (env w) (heap w) F P (trace w) (generator_stop w)) d Hd).
  cbn.
  destruct (bind task _ cb (env w)) as [[[]|eb] e1].
  - destruct (execute task d e1) as [rx e2].
    destruct (unbind task _ cb e2) as [ru e3]. reflexivity.
  - destruct (unbind task _ cb e1) as [ru e2]. reflexivity.
Qed.

Lemma _revert_task_frame task (arguments : loc) (result failures : value)
    cb w d (F : gmap loc (Future E)) (P : gmap loc (Pool E)) :
  heap w !! arguments = Some d ->
  _revert_task task arguments result failures cb
    (World (env w) (heap w) F P (trace w) (generator_stop w)) =
    let (r, w') := _revert_task task arguments result failures cb w in
    (r, World (env w') (heap w') F P (trace w') (generator_stop w')).
Proof.
  intros Hd.
  rewrite (_revert_task_run _ _ _ _ _ _ _ Hd).
  rewrite (_revert_task_run task arguments result failures cb
             (World (env w) (heap w) F P (trace w) (generator_stop w)) d Hd).
  cbn.
  destruct (bind task _ cb (env w)) as [[[]|eb] e1].
  - destruct (revert task _ e1) as [rx e2].
    destruct (unbind task _ cb e2) as [ru e3]. reflexivity.
  - destruct (unbind task _ cb e1) as [ru e2]. reflexivity.
Qed.

(** A work item submitted to a live pool and then run by a worker: when
    the call it stands for returns [o] from the world of the submission,
    the future that [submit] returned, pending until then, is resolved
    with [o]. *)
Lemma submitted_work_resolves pool (p : Pool E) (wk : work E)
    (o : outcome E) w w1 :
  pools w !! pool = Some p -> _shutdown p = false ->
  run_work wk w = (Ret o, w1) ->
  (forall F P,
     run_work wk (World (env w) (heap w) F P (trace w) (generator_stop w)) =
       let (r, w') := run_work wk w in
       (r, World (env w') (heap w') F P (trace w') (generator_stop w'))) ->
  exists f wq wr,
    submit pool wk w = (Ret f, wq) /\
    futs wq !! f = Some pending /\
    _WorkItem_run f wk wq = (Ret (), wr) /\
    futs wr !! f = Some (resolved o).
Proof.
  intros Hp Hs Hrun Hframe.
  eexists _, _, _. split.
  { unfold submit. rewrite Hp, Hs. reflexivity. }
  split; [cbn; apply lookup_insert_eq|].
  split.
  - unfold _WorkItem_run, set_running, settle, mbind, M_bind. cbn.
    rewrite lookup_insert_eq. cbn.
    unfold set_futs, set_pools; cbn.
    rewrite Hframe, Hrun. unfold set_result. cbn.
    rewrite lookup_insert_eq. reflexivity.
  - cbn. apply lookup_insert_eq.
Qed.

(** ** The operation runners *)

Implicit Types (self : ParallelTaskExecutor) (pool : loc).

(** When [unbind] returns, the runner ends as its block did. *)
Lemma runner_result_unbound_normally (pep479 : bool) task (verb : string)
    (before : res value) (r : res value) :
  runner_result pep479 task verb before r (Ret ()) =
    match normalized r with
    | Ret v => Ret (task, verb, v)
    | Raise e => Raise e
    end.
Proof. unfold runner_result, with_result. destruct (normalized r); reflexivity. Qed.

(** The parallel executor hands the runner and its arguments to the pool
    as they are: on a live pool, the future it returns is pending, and a
    worker that runs the item from there resolves it with what the runner
    returns. *)
Lemma parallel_execute_future_of_outcome self pool (p : Pool E) task
    (arguments : loc) cb w d (o : outcome E) w1 :
  _executor self = Some pool ->
  pools w !! pool = Some p -> _shutdown p = false ->
  heap w !! arguments = Some d ->
  _execute_task task arguments cb w = (Ret o, w1) ->
  exists f wq wr,
    ParallelTaskExecutor_execute_task self task arguments cb w =
      (Ret f, wq) /\
    futs wq !! f = Some pending /\
    _WorkItem_run f (Work_execute_task task arguments cb) wq = (Ret (), wr) /\
    futs wr !! f = Some (resolved o).
Proof.
  intros Hex Hp Hs Hd Hrun.
  unfold ParallelTaskExecutor_execute_task. rewrite Hex.
  apply (submitted_work_resolves pool p
           (Work_execute_task task arguments cb) o w w1 Hp Hs Hrun).
  intros F P. cbn. apply (_execute_task_frame _ _ _ _ _ _ _ Hd).
Qed.

Lemma parallel_revert_future_of_outcome self pool (p : Pool E) task
    (arguments : loc) (result failures : value) cb w d (o : outcome E) w1 :
  _executor self = Some pool ->
  pools w !! pool = Some p -> _shutdown p = false ->
  heap w !! arguments = Some d ->
  _revert_task task arguments result failures cb w = (Ret o, w1) ->
  exists f wq wr,
    ParallelTaskExecutor_revert_task self task arguments result failures
      cb w = (Ret f, wq) /\
    futs wq !! f = Some pending /\
    _WorkItem_run f
      (Work_revert_task task arguments result failures cb) wq =
      (Ret (), wr) /\
    futs wr !! f = Some (resolved o).
Proof.
  intros Hex Hp Hs Hd Hrun.
  unfold ParallelTaskExecutor_revert_task. rewrite Hex.
  apply (submitted_work_resolves pool p
           (Work_revert_task task arguments result failures cb) o w w1
           Hp Hs Hrun).
  intros F P. cbn. apply (_revert_task_frame _ _ _ _ _ _ _ _ _ Hd).
Qed.

(** C1, amended.  When [bind] has returned, [execute] raises an instance
    [exc] of [Exception] and [unbind] returns, [_execute_task] raises
    nothing: it returns [(task, "executed", Failure)] with the Failure
    capturing [exc].  The serial [execute_task] then returns a future
    resolved with that outcome, and so is the future of the parallel
    [execute_task] on a live pool once a worker has run the call. *)
Theorem execute_fault_becomes_Failure task (arguments : loc) cb w d
    (e1 e2 e3 : E) (exc : exn) :
  heap w !! arguments = Some d ->
  bind task "update_progress" cb (env w) = (Ret (), e1) ->
  execute task d e1 = (Raise exc, e2) ->
  isinstance_Exception exc = true ->
  unbind task "update_progress" cb e2 = (Ret (), e3) ->
  (exists w',
     _execute_task task arguments cb w =
       (Ret (task, "executed", VFailure exc), w') /\
     env w' = e3 /\ same_stores w w') /\
  (exists f w',
     SerialTaskExecutor_execute_task SerialTaskExecutor__init__
       task arguments cb w = (Ret f, w') /\
     futs w' !! f = Some (resolved (task, "executed", VFailure exc)) /\
     done w' f = true) /\
  (forall self pool (p : Pool E),
     _executor self = Some pool ->
     pools w !! pool = Some p -> _shutdown p = false ->
     exists f wq wr,
       ParallelTaskExecutor_execute_task self task arguments cb w =
         (Ret f, wq) /\
       futs wq !! f = Some pending /\
       _WorkItem_run f (Work_execute_task task arguments cb) wq =
         (Ret (), wr) /\
       futs wr !! f = Some (resolved (task, "executed", VFailure exc))).
Proof.
  intros Hd Hb Hx Hexc Hu.
  assert (Hrun : exists w',
     _execute_task task arguments cb w =
       (Ret (task, "executed", VFailure exc), w') /\
     env w' = e3 /\ same_stores w w').
  { rewrite (_execute_task_run _ _ _ _ _ Hd). cbn zeta.
    rewrite Hb, Hx, Hu, runner_result_unbound_normally.
    unfold normalized. rewrite Hexc.
    eexists. split; [reflexivity|]. cbn. repeat split. }
  split; [exact Hrun|].
  destruct Hrun as (w1 & Hrun & _).
  split; [exact (serial_future_of_outcome _ _ _ _ Hrun)|].
  intros self pool p Hex Hp Hs.
  exact (parallel_execute_future_of_outcome _ _ _ _ _ _ _ _ _ _
           Hex Hp Hs Hd Hrun).
Qed.

(** The same normalization in [_revert_task]. *)
Lemma revert_fault_becomes_Failure task (arguments : loc)
    (result failures : value) cb w d (e1 e2 e3 : E) (exc : exn) :
  heap w !! arguments = Some d ->
  bind task "update_progress" cb (env w) = (Ret (), e1) ->
  revert task (revert_kwargs d result failures) e1 = (Raise exc, e2) ->
  isinstance_Exception exc = true ->
  unbind task "update_progress" cb e2 = (Ret (), e3) ->
  exists w',
    _revert_task task arguments result failures cb w =
      (Ret (task, "reverted", VFailure exc), w').
Proof.
  intros Hd Hb Hx Hexc Hu.
  rewrite (_revert_task_run _ _ _ _ _ _ _ Hd). cbn zeta.
  rewrite Hb, Hx, Hu, runner_result_unbound_normally.
    unfold normalized. rewrite Hexc.
  eexists. reflexivity.
Qed.

(** C7, amended.  When [bind] has returned, [execute] returns [v] and
    [unbind] returns, [_execute_task] returns exactly
    [(task, "executed", v)]; the serial [execute_task] returns a future
    resolved with it, and the future of the parallel [execute_task] on a
    live pool is resolved with it once a worker has run the call.
    Symmetrically [_revert_task] returns [(task, "reverted", r)] for the
    value [r] that [revert] returns on the extended arguments. *)
Theorem returned_value_is_the_result :
  (forall task (arguments : loc) cb w d (e1 e2 e3 : E) (v : value),
     heap w !! arguments = Some d ->
     bind task "update_progress" cb (env w) = (Ret (), e1) ->
     execute task d e1 = (Ret v, e2) ->
     unbind task "update_progress" cb e2 = (Ret (), e3) ->
     (exists w',
        _execute_task task arguments cb w =
          (Ret (task, "executed", v), w')) /\
     (exists f w',
        SerialTaskExecutor_execute_task SerialTaskExecutor__init__
          task arguments cb w = (Ret f, w') /\
        futs w' !! f = Some (resolved (task, "executed", v))) /\
     (forall self pool (p : Pool E),
        _executor self = Some pool ->
        pools w !! pool = Some p -> _shutdown p = false ->
        exists f wq wr,
          ParallelTaskExecutor_execute_task self task arguments cb w =
            (Ret f, wq) /\
          futs wq !! f = Some pending /\
          _WorkItem_run f (Work_execute_task task arguments cb) wq =
            (Ret (), wr) /\
          futs wr !! f = Some (resolved (task, "executed", v)))) /\
  (forall task (arguments : loc) (result failures : value) cb w d
          (e1 e2 e3 : E) (r : value),
     heap w !! arguments = Some d ->
     bind task "update_progress" cb (env w) = (Ret (), e1) ->
     revert task (revert_kwargs d result failures) e1 = (Ret r, e2) ->
     unbind task "update_progress" cb e2 = (Ret (), e3) ->
     (exists w',
        _revert_task task arguments result failures cb w =
          (Ret (task, "reverted", r), w')) /\
     (exists f w',
        SerialTaskExecutor_revert_task SerialTaskExecutor__init__
          task arguments result failures cb w = (Ret f, w') /\
        futs w' !! f = Some (resolved (task, "reverted", r))) /\
     (forall self pool (p : Pool E),
        _executor self = Some pool ->
        pools w !! pool = Some p -> _shutdown p = false ->
        exists f wq wr,
          ParallelTaskExecutor_revert_task self task arguments result
            failures cb w = (Ret f, wq) /\
          futs wq !! f = Some pending /\
          _WorkItem_run f
            (Work_revert_task task arguments result failures cb) wq =
            (Ret (), wr) /\
          futs wr !! f = Some (resolved (task, "reverted", r)))).
Proof.
  split.
  - intros task arguments cb w d e1 e2 e3 v Hd Hb Hx Hu.
    assert (Hrun : exists w',
      _execute_task task arguments cb w = (Ret (task, "executed", v), w')).
    { rewrite (_execute_task_run _ _ _ _ _ Hd). cbn zeta.
      rewrite Hb, Hx, Hu, runner_result_unbound_normally.
      eexists. reflexivity. }
    split; [exact Hrun|]. destruct Hrun as (w1 & Hrun). split.
    + destruct (serial_future_of_outcome _ _ _ _ Hrun)
        as (f & w' & ? & ? & _).
      eauto.
    + intros self pool p Hex Hp Hs.
      exact (parallel_execute_future_of_outcome _ _ _ _ _ _ _ _ _ _
               Hex Hp Hs Hd Hrun).
  - intros task arguments result failures cb w d e1 e2 e3 r Hd Hb Hx Hu.
    assert (Hrun : exists w',
      _revert_task task arguments result failures cb w =
        (Ret (task, "reverted", r), w')).
    { rewrite (_revert_task_run _ _ _ _ _ _ _ Hd). cbn zeta.
      rewrite Hb, Hx, Hu, runner_result_unbound_normally.
      eexists. reflexivity. }
    split; [exact Hrun|]. destruct Hrun as (w1 & Hrun). split.
    + destruct (serial_future_of_outcome _ _ _ _ Hrun)
        as (f & w' & ? & ? & _).
      eauto.
    + intros self pool p Hex Hp Hs.
      exact (parallel_revert_future_of_outcome _ _ _ _ _ _ _ _ _ _ _ _
               Hex Hp Hs Hd Hrun).
Qed.

(** The trace of a runner, whatever the task does: one bind first, one
    unbind last, and at most the operation in between. *)
Lemma _execute_task_trace task (arguments : loc) cb w d :
  heap w !! arguments = Some d ->
  exists r w' middle,
    _execute_task task arguments cb w = (r, w') /\
    trace w' =
      (trace w ++ CallBind task "update_progress" cb :: middle ++
         [CallUnbind task "update_progress" cb])%list /\
    (middle = [] \/ middle = [CallExecute task d]).
Proof.
  intros Hd. rewrite (_execute_task_run _ _ _ _ _ Hd). cbn zeta.
  destruct (bind task _ cb (env w)) as [[[]|eb] e1].
  - destruct (execute task d e1) as [rx e2].
    destruct (unbind task _ cb e2) as [ru e3].
    eexists _, _, [CallExecute task d]. cbn. auto.
  - destruct (unbind task _ cb e1) as [ru e2].
    eexists _, _, []. cbn. auto.
Qed.

Lemma _revert_task_trace task (arguments : loc) (result failures : value)
    cb w d :
  heap w !! arguments = Some d ->
  exists r w' middle,
    _revert_task task arguments result failures cb w = (r, w') /\
    trace w' =
      (trace w ++ CallBind task "update_progress" cb :: middle ++
         [CallUnbind task "update_progress" cb])%list /\
    (middle = [] \/
     middle = [CallRevert task (revert_kwargs d result failures)]).
Proof.
  intros Hd. rewrite (_revert_task_run _ _ _ _ _ _ _ Hd). cbn zeta.
  destruct (bind task _ cb (env w)) as [[[]|eb] e1].
  - destruct (revert task _ e1) as [rx e2].
    destruct (unbind task _ cb e2) as [ru e3].
    eexists _, _, [CallRevert task _]. cbn. auto.
  - destruct (unbind task _ cb e1) as [ru e2].
    eexists _, _, []. cbn. auto.
Qed.

Lemma bind_count_app (l1 l2 : list (event E)) :
  bind_count (l1 ++ l2) = (bind_count l1 + bind_count l2)%nat.
Proof. unfold bind_count. rewrite filter_app. apply length_app. Qed.

Lemma unbind_count_app (l1 l2 : list (event E)) :
  unbind_count (l1 ++ l2) = (unbind_count l1 + unbind_count l2)%nat.
Proof. unfold unbind_count. rewrite filter_app. apply length_app. Qed.

(** The counts of a trace of the shape above. *)
Lemma scoped_trace_counts task cb (tr middle : list (event E)) :
  (middle = [] \/ exists kw, middle = [CallExecute task kw] \/
                             middle = [CallRevert task kw]) ->
  let added := (CallBind task "update_progress" cb :: middle ++
                  [CallUnbind task "update_progress" cb])%list in
  bind_count added = 1%nat /\ unbind_count added = 1%nat /\
  last added = Some (CallUnbind task "update_progress" cb) /\
  bind_count (tr ++ added) = S (bind_count tr) /\
  unbind_count (tr ++ added) = S (unbind_count tr).
Proof.
  intros Hm added.
  assert (Hc : bind_count added = 1%nat /\ unbind_count added = 1%nat /\
               last added = Some (CallUnbind task "update_progress" cb)).
  { subst added. destruct Hm as [->|(kw & [->| ->])]; cbn; auto. }
  destruct Hc as (Hb & Hu & Hl). repeat split; try assumption.
  - rewrite bind_count_app, Hb. lia.
  - rewrite unbind_count_app, Hu. lia.
Qed.

(** The tasks' state after a runner: [unbind] was applied, once, to the
    state that the operation left, or that [bind] left when it raised. *)
Lemma _execute_task_env task (arguments : loc) cb w d :
  heap w !! arguments = Some d ->
  env (snd (_execute_task task arguments cb w)) =
    let bound := bind task "update_progress" cb (env w) in
    snd (unbind task "update_progress" cb
           match fst bound with
           | Ret _ => snd (execute task d (snd bound))
           | Raise _ => snd bound
           end).
Proof.
  intros Hd. rewrite (_execute_task_run _ _ _ _ _ Hd). cbn zeta.
  destruct (bind task _ cb (env w)) as [[[]|eb] e1]; cbn.
  - destruct (execute task d e1) as [rx e2]; cbn.
    destruct (unbind task _ cb e2) as [ru e3]. reflexivity.
  - destruct (unbind task _ cb e1) as [ru e2]. reflexivity.
Qed.

Lemma _revert_task_env task (arguments : loc) (result failures : value)
    cb w d :
  heap w !! arguments = Some d ->
  env (snd (_revert_task task arguments result failures cb w)) =
    let bound := bind task "update_progress" cb (env w) in
    snd (unbind task "update_progress" cb
           match fst bound with
           | Ret _ =>
               snd (revert task (revert_kwargs d result failures)
                      (snd bound))
           | Raise _ => snd bound
           end).
Proof.
  intros Hd. rewrite (_revert_task_run _ _ _ _ _ _ _ Hd). cbn zeta.
  destruct (bind task _ cb (env w)) as [[[]|eb] e1]; cbn.
  - destruct (revert task _ e1) as [rx e2]; cbn.
    destruct (unbind task _ cb e2) as [ru e3]. reflexivity.
  - destruct (unbind task _ cb e1) as [ru e2]. reflexivity.
Qed.

(** C3.  Every run of [_execute_task] or [_revert_task], whether the task's
    methods return or raise, calls [bind] once and then [unbind] once, with
    the name "update_progress" and the same callback.  The unbind is the
    last call made, the trace has one more bind and one more unbind than
    before, and the call is really made on the task: the tasks' state at
    the end is the one that [task.unbind] leaves when applied to the state
    that the operation left (that [bind] left, when it raised), so that
    whatever [task.unbind] establishes, such as the callback being out of
    the table, holds after the run. *)
Theorem callback_unbound_exactly_once task (arguments : loc)
    (result failures : value) cb w d :
  heap w !! arguments = Some d ->
  let bound := bind task "update_progress" cb (env w) in
  let after_execute :=
    match fst bound with
    | Ret _ => snd (execute task d (snd bound))
    | Raise _ => snd bound
    end in
  let after_revert :=
    match fst bound with
    | Ret _ =>
        snd (revert task
               (<["flow_failures" := failures]> (<["result" := result]> d))
               (snd bound))
    | Raise _ => snd bound
    end in
  (exists r w' added,
     _execute_task task arguments cb w = (r, w') /\
     trace w' = (trace w ++ added)%list /\
     head added = Some (CallBind task "update_progress" cb) /\
     last added = Some (CallUnbind task "update_progress" cb) /\
     bind_count added = 1%nat /\ unbind_count added = 1%nat /\
     bind_count (trace w') = S (bind_count (trace w)) /\
     unbind_count (trace w') = S (unbind_count (trace w)) /\
     env w' = snd (unbind task "update_progress" cb after_execute) /\
     (forall Q : E -> Prop,
        (forall e, Q (snd (unbind task "update_progress" cb e))) ->
        Q (env w'))) /\
  (exists r w' added,
     _revert_task task arguments result failures cb w = (r, w') /\
     trace w' = (trace w ++ added)%list /\
     head added = Some (CallBind task "update_progress" cb) /\
     last added = Some (CallUnbind task "update_progress" cb) /\
     bind_count added = 1%nat /\ unbind_count added = 1%nat /\
     bind_count (trace w') = S (bind_count (trace w)) /\
     unbind_count (trace w') = S (unbind_count (trace w)) /\
     env w' = snd (unbind task "update_progress" cb after_revert) /\
     (forall Q : E -> Prop,
        (forall e, Q (snd (unbind task "update_progress" cb e))) ->
        Q (env w'))).
Proof.
  intros Hd bound after_execute after_revert. split.
  - destruct (_execute_task_trace task arguments cb w d Hd)
      as (r & w' & middle & Hrun & Htr & Hm).
    destruct (scoped_trace_counts task cb (trace w) middle)
      as (Hb & Hu & Hl & Hbt & Hut); [destruct Hm; eauto|].
    assert (Henv : env w' =
              snd (unbind task "update_progress" cb after_execute)).
    { pose proof (_execute_task_env task arguments cb w d Hd) as He.
      rewrite Hrun in He. exact He. }
    exists r, w', (CallBind task "update_progress" cb :: middle ++
                     [CallUnbind task "update_progress" cb])%list.
    rewrite Htr. repeat split; try assumption.
    intros Q HQ. rewrite Henv. apply HQ.
  - destruct (_revert_task_trace task arguments result failures cb w d Hd)
      as (r & w' & middle & Hrun & Htr & Hm).
    destruct (scoped_trace_counts task cb (trace w) middle)
      as (Hb & Hu & Hl & Hbt & Hut); [destruct Hm; eauto|].
    assert (Henv : env w' =
              snd (unbind task "update_progress" cb after_revert)).
    { pose proof (_revert_task_env task arguments result failures cb w d Hd)
        as He.
      rewrite Hrun in He. exact He. }
    exists r, w', (CallBind task "update_progress" cb :: middle ++
                     [CallUnbind task "update_progress" cb])%list.
    rewrite Htr. repeat split; try assumption.
    intros Q HQ. rewrite Henv. apply HQ.
Qed.

(** C9, amended.  When [bind] raises [eb], a runner returns no outcome and
    builds no Failure: the operation is not called, [unbind] is called
    once, on the state [bind] left, and an exception reaches the caller.
    It is the exception of [unbind] when [unbind] raises too, and [eb]
    otherwise; only that a [StopIteration] does not come through the
    generator of [_autobind]: the caller gets a RuntimeError for it. *)
Theorem bind_fault_propagates task (arguments : loc)
    (result failures : value) cb w d (eb : exn) (e1 : E) :
  heap w !! arguments = Some d ->
  bind task "update_progress" cb (env w) = (Raise eb, e1) ->
  let last_raised :=
    match fst (unbind task "update_progress" cb e1) with
    | Ret _ => eb
    | Raise eu => eu
    end in
  let raised :=
    if isinstance_StopIteration last_raised then
      Exn RuntimeError
        (if generator_stop w then "generator raised StopIteration"
         else "generator didn't yield")
    else last_raised in
  let calls := [CallBind task "update_progress" cb;
                CallUnbind task "update_progress" cb] in
  (exists w',
     _execute_task task arguments cb w = (Raise raised, w') /\
     trace w' = (trace w ++ calls)%list /\
     env w' = snd (unbind task "update_progress" cb e1)) /\
  (exists w',
     _revert_task task arguments result failures cb w = (Raise raised, w') /\
     trace w' = (trace w ++ calls)%list /\
     env w' = snd (unbind task "update_progress" cb e1)).
Proof.
  intros Hd Hb last_raised raised calls.
  assert (Hraised : forall ru : res unit,
    fst (unbind task "update_progress" cb e1) = ru ->
    unbound_result (E := E) (generator_stop w) eb ru = Raise raised).
  { intros ru Hru. subst raised last_raised. rewrite Hru.
    unfold unbound_result, enter_fault, leaves_generator.
    destruct ru as [[]|eu];
      [destruct (isinstance_StopIteration eb) eqn:Hs
      |destruct (isinstance_StopIteration eu) eqn:Hs];
      destruct (generator_stop w); cbn; rewrite ?Hs; reflexivity. }
  subst calls. split.
  - rewrite (_execute_task_run _ _ _ _ _ Hd). cbn zeta. rewrite Hb.
    destruct (unbind task _ cb e1) as [ru e2] eqn:Hu.
    rewrite (Hraised ru eq_refl). eexists. split; [reflexivity|].
    cbn. auto.
  - rewrite (_revert_task_run _ _ _ _ _ _ _ Hd). cbn zeta. rewrite Hb.
    destruct (unbind task _ cb e1) as [ru e2] eqn:Hu.
    rewrite (Hraised ru eq_refl). eexists. split; [reflexivity|].
    cbn. auto.
Qed.


End RunnerProperties.

(** ** The executors *)

Section ExecutorProperties.

Context {E : Type}.

Implicit Types (task : Task E) (w : world E) (cb : callback).
Implicit Types (self : ParallelTaskExecutor) (pool : loc).

(** *** Pools *)

Lemma submit_live pool (wk : work E) w (p : Pool E) :
  pools w !! pool = Some p -> _shutdown p = false ->
  exists f w', submit pool wk w = (Ret f, w').
Proof.
  intros Hp Hs. unfold submit. rewrite Hp, Hs. eauto.
Qed.

Lemma submit_after_shutdown pool (wk : work E) w (p : Pool E) :
  pools w !! pool = Some p -> _shutdown p = true ->
  submit pool wk w =
    (Raise (Exn RuntimeError "cannot schedule new futures after shutdown"),
     w).
Proof.
  intros Hp Hs. unfold submit. rewrite Hp, Hs. reflexivity.
Qed.

Lemma usable_live pool w (p : Pool E) :
  pools w !! pool = Some p -> _shutdown p = false -> usable w pool.
Proof. intros Hp Hs wk. eapply submit_live; eassumption. Qed.

Lemma not_usable_after_shutdown pool w (p : Pool E) :
  pools w !! pool = Some p -> _shutdown p = true -> ~ usable w pool.
Proof.
  intros Hp Hs Hu.
  pose (idle := {| task_name := "idle";
                   bind := fun _ _ (e : E) => (Ret (), e);
                   unbind := fun _ _ (e : E) => (Ret (), e);
                   execute := fun _ (e : E) => (Ret VNone, e);
                   revert := fun _ (e : E) => (Ret VNone, e) |}).
  destruct (Hu (Work_execute_task idle 0%nat _noop)) as (f & w' & Hsub).
  rewrite (submit_after_shutdown _ _ _ _ Hp Hs) in Hsub. discriminate.
Qed.

(** *** Lifecycle of the parallel executor, case by case *)

(** A borrowing executor: [start] and [stop] do nothing. *)
Lemma ParallelTaskExecutor_start_borrowed (n : nat) self w :
  _own_executor self = false ->
  ParallelTaskExecutor_start n self w = (Ret self, w).
Proof. intros Hown. unfold ParallelTaskExecutor_start. rewrite Hown. reflexivity. Qed.

Lemma ParallelTaskExecutor_stop_borrowed self w :
  _own_executor self = false ->
  ParallelTaskExecutor_stop self w = (Ret self, w).
Proof. intros Hown. unfold ParallelTaskExecutor_stop. rewrite Hown. reflexivity. Qed.

(** An owning executor: [start] makes a new pool, whatever it held. *)
Lemma ParallelTaskExecutor_start_owning (n : nat) self w :
  _own_executor self = true ->
  let pool := fresh (dom (pools w)) in
  ParallelTaskExecutor_start n self w =
    (Ret {| _executor := Some pool; _own_executor := true |},
     set_pools (<[pool := {| _max_workers := n; _shutdown := false;
                             _work_queue := [] |}]> (pools w)) w).
Proof.
  intros Hown. unfold ParallelTaskExecutor_start, ThreadPoolExecutor.
  rewrite Hown. reflexivity.
Qed.

(** An owning executor holding a pool: [stop] shuts it down and drops it. *)
Lemma ParallelTaskExecutor_stop_owning self w pool (p : Pool E) :
  _own_executor self = true -> _executor self = Some pool ->
  pools w !! pool = Some p ->
  ParallelTaskExecutor_stop self w =
    (Ret {| _executor := None; _own_executor := true |},
     set_pools (<[pool := {| _max_workers := _max_workers p;
                             _shutdown := true;
                             _work_queue := _work_queue p |}]> (pools w)) w).
Proof.
  intros Hown Hex Hp. unfold ParallelTaskExecutor_stop, shutdown.
  rewrite Hown, Hex. unfold mbind, M_bind. rewrite Hp. reflexivity.
Qed.

(** An owning executor holding no pool: [stop] fails on [None.shutdown]. *)
Lemma ParallelTaskExecutor_stop_without_pool self w :
  _own_executor self = true -> _executor self = None ->
  ParallelTaskExecutor_stop self w =
    (Raise (NoneType_has_no_attribute "shutdown"), w).
Proof.
  intros Hown Hex. unfold ParallelTaskExecutor_stop.
  rewrite Hown, Hex. reflexivity.
Qed.

(** An executor holding no pool: submission fails on [None.submit]. *)
Lemma ParallelTaskExecutor_submit_without_pool self task (arguments : loc)
    (result failures : value) cb w :
  _executor self = None ->
  ParallelTaskExecutor_execute_task self task arguments cb w =
    (Raise (NoneType_has_no_attribute "submit"), w) /\
  ParallelTaskExecutor_revert_task self task arguments result failures cb w =
    (Raise (NoneType_has_no_attribute "submit"), w).
Proof.
  intros Hex.
  unfold ParallelTaskExecutor_execute_task, ParallelTaskExecutor_revert_task.
  rewrite Hex. split; reflexivity.
Qed.

(** [start] then [stop] on an owning executor, from any world. *)
Lemma start_then_stop_owning (n : nat) self w :
  _own_executor self = true ->
  let pool := fresh (dom (pools w)) in
  exists s1 w1 s2 w2,
    ParallelTaskExecutor_start n self w = (Ret s1, w1) /\
    _executor s1 = Some pool /\ _own_executor s1 = true /\
    pools w !! pool = None /\
    pools w1 = <[pool := {| _max_workers := n; _shutdown := false;
                            _work_queue := [] |}]> (pools w) /\
    ParallelTaskExecutor_stop s1 w1 = (Ret s2, w2) /\
    s2 = {| _executor := None; _own_executor := true |} /\
    pools w2 = <[pool := {| _max_workers := n; _shutdown := true;
                            _work_queue := [] |}]> (pools w).
Proof.
  intros Hown pool.
  assert (Hfresh : pools w !! pool = None).
  { apply not_elem_of_dom. apply is_fresh. }
  eexists _, _, _, _.
  split; [apply ParallelTaskExecutor_start_owning; exact Hown|].
  split; [reflexivity|]. split; [reflexivity|]. split; [exact Hfresh|].
  split; [reflexivity|].
  split.
  { eapply ParallelTaskExecutor_stop_owning; [reflexivity|reflexivity|].
    cbn. apply lookup_insert_eq. }
  split; [reflexivity|]. cbn. apply insert_insert_eq.
Qed.

(** *** The claims on the executors *)

(** C4.  [stop] on an executor built on a supplied pool returns without
    touching the world: the pool is not shut down and, if it accepted work
    before, it still does.  An executor built with no pool gets one of its
    own from [start], and [stop] then shuts that pool down: any further
    [submit] on it is refused. *)
Theorem stop_spares_a_borrowed_pool :
  (forall pool w,
     let self := ParallelTaskExecutor__init__ (Some pool) in
     exists w',
       ParallelTaskExecutor_stop self w = (Ret self, w') /\
       w' = w /\ pools w' !! pool = pools w !! pool /\
       (usable w pool -> usable w' pool)) /\
  (forall (n : nat) w,
     exists pool s1 w1 s2 w2 (p : Pool E),
       ParallelTaskExecutor_start n (ParallelTaskExecutor__init__ None) w =
         (Ret s1, w1) /\
       _executor s1 = Some pool /\ pools w !! pool = None /\
       usable w1 pool /\
       ParallelTaskExecutor_stop s1 w1 = (Ret s2, w2) /\
       pools w2 !! pool = Some p /\ _shutdown p = true /\
       ~ usable w2 pool /\
       (forall wk : work E,
          submit pool wk w2 =
            (Raise (Exn RuntimeError
                      "cannot schedule new futures after shutdown"), w2))).
Proof.
  split.
  - intros pool w self. exists w.
    split; [apply ParallelTaskExecutor_stop_borrowed; reflexivity|]. auto.
  - intros n w.
    destruct (start_then_stop_owning n (ParallelTaskExecutor__init__ None) w)
      as (s1 & w1 & s2 & w2 & Hstart & Hex & _ & Hfresh & Hp1 & Hstop & _ & Hp2);
      [reflexivity|].
    set (pool := fresh (dom (pools w))) in *.
    assert (Hlook : pools w2 !! pool =
              Some {| _max_workers := n; _shutdown := true;
                      _work_queue := [] |}).
    { rewrite Hp2. apply lookup_insert_eq. }
    eexists pool, s1, w1, s2, w2, _.
    split; [exact Hstart|]. split; [exact Hex|]. split; [exact Hfresh|].
    split.
    { eapply usable_live; [rewrite Hp1; apply lookup_insert_eq|reflexivity]. }
    split; [exact Hstop|]. split; [exact Hlook|]. split; [reflexivity|].
    split.
    { eapply not_usable_after_shutdown; [exact Hlook|reflexivity]. }
    intros wk. eapply submit_after_shutdown; [exact Hlook|reflexivity].
Qed.

(** C5, amended.  [stop] of the serial executor and of a parallel executor
    on a supplied pool returns and changes nothing, however often it is
    called.  On an owning parallel executor, [stop] after [start] returns,
    shuts down the pool that [start] made and no other, and drops the
    reference; a [stop] while the executor holds no pool (none started, or
    stopped already) raises AttributeError and changes nothing. *)
Theorem stop_without_an_owned_pool :
  (forall (self : SerialTaskExecutor) (w : world E),
     SerialTaskExecutor_stop self w = (Ret self, w) /\
     twice SerialTaskExecutor_stop SerialTaskExecutor_stop self w =
       (Ret self, w)) /\
  (forall pool w,
     let self := ParallelTaskExecutor__init__ (Some pool) in
     ParallelTaskExecutor_stop self w = (Ret self, w) /\
     twice ParallelTaskExecutor_stop ParallelTaskExecutor_stop self w =
       (Ret self, w)) /\
  (forall (n : nat) w,
     exists pool s1 w1 s2 w2 (p : Pool E),
       ParallelTaskExecutor_start n (ParallelTaskExecutor__init__ None) w =
         (Ret s1, w1) /\
       _executor s1 = Some pool /\ pools w !! pool = None /\
       ParallelTaskExecutor_stop s1 w1 = (Ret s2, w2) /\
       _executor s2 = None /\
       pools w2 !! pool = Some p /\ _shutdown p = true /\
       (forall other, other <> pool -> pools w2 !! other = pools w !! other) /\
       ParallelTaskExecutor_stop s2 w2 =
         (Raise (NoneType_has_no_attribute "shutdown"), w2)) /\
  (forall w,
     ParallelTaskExecutor_stop (ParallelTaskExecutor__init__ None) w =
       (Raise (NoneType_has_no_attribute "shutdown"), w)).
Proof.
  split; [|split; [|split]].
  - intros self w. split; reflexivity.
  - intros pool w self. split; reflexivity.
  - intros n w.
    destruct (start_then_stop_owning n (ParallelTaskExecutor__init__ None) w)
      as (s1 & w1 & s2 & w2 & Hstart & Hex & _ & Hfresh & Hp1 & Hstop & Hs2 & Hp2);
      [reflexivity|].
    eexists (fresh (dom (pools w))), s1, w1, s2, w2, _.
    split; [exact Hstart|]. split; [exact Hex|]. split; [exact Hfresh|].
    split; [exact Hstop|]. split; [rewrite Hs2; reflexivity|].
    split; [rewrite Hp2; apply lookup_insert_eq|]. split; [reflexivity|].
    split.
    { intros other Hne. rewrite Hp2. apply lookup_insert_ne. congruence. }
    apply ParallelTaskExecutor_stop_without_pool; rewrite Hs2; reflexivity.
  - intros w. apply ParallelTaskExecutor_stop_without_pool; reflexivity.
Qed.

(** C6.  [wait_for_any] of the serial executor returns at once, with the
    whole input as the done part and an empty not-done part, and changes
    nothing; and every future that the serial executor returns is done
    when it is returned. *)
Theorem serial_wait_for_any_returns_all
    (self : SerialTaskExecutor) (fs : list loc) (w : world E) :
  SerialTaskExecutor_wait_for_any self fs w = (Ret (fs, []), w) /\
  (forall task (arguments : loc) cb w0 f w1,
     SerialTaskExecutor_execute_task self task arguments cb w0 =
       (Ret f, w1) -> done w1 f = true) /\
  (forall task (arguments : loc) (result failures : value) cb w0 f w1,
     SerialTaskExecutor_revert_task self task arguments result failures cb w0 =
       (Ret f, w1) -> done w1 f = true).
Proof.
  split; [reflexivity|]. split.
  - intros task arguments cb w0 f w1.
    rewrite SerialTaskExecutor_execute_task_run.
    destruct (_execute_task task arguments cb w0) as [[o|e] w']; [|discriminate].
    destruct (_completed_future_done o w') as (f' & w'' & Hrun & _ & Hdone).
    rewrite Hrun. intros [= <- <-]. exact Hdone.
  - intros task arguments result failures cb w0 f w1.
    rewrite SerialTaskExecutor_revert_task_run.
    destruct (_revert_task task arguments result failures cb w0)
      as [[o|e] w']; [|discriminate].
    destruct (_completed_future_done o w') as (f' & w'' & Hrun & _ & Hdone).
    rewrite Hrun. intros [= <- <-]. exact Hdone.
Qed.

(** What two calls of [start] do to the store of pools.  On the serial
    executor and on a parallel executor on a supplied pool a [start]
    changes nothing.  On an owning parallel executor every [start] makes
    a new pool and rebinds the executor to it: after two calls the executor
    holds a second pool, live and empty like the first, and the first pool
    is still in the store, referred to by nothing. *)
Lemma start_twice_pools :
  (forall (self : SerialTaskExecutor) (w : world E),
     SerialTaskExecutor_start self w = (Ret self, w) /\
     twice SerialTaskExecutor_start SerialTaskExecutor_start self w =
       SerialTaskExecutor_start self w) /\
  (forall (n : nat) pool w,
     let self := ParallelTaskExecutor__init__ (Some pool) in
     ParallelTaskExecutor_start n self w = (Ret self, w) /\
     twice (ParallelTaskExecutor_start n) (ParallelTaskExecutor_start n)
       self w = ParallelTaskExecutor_start n self w) /\
  (forall (n : nat) w,
     let self := ParallelTaskExecutor__init__ None in
     let new_pool := {| _max_workers := n; _shutdown := false;
                        _work_queue := [] |} : Pool E in
     exists first second s1 w1 s2 w2,
       ParallelTaskExecutor_start n self w = (Ret s1, w1) /\
       twice (ParallelTaskExecutor_start n) (ParallelTaskExecutor_start n)
         self w = (Ret s2, w2) /\
       s1 = {| _executor := Some first; _own_executor := true |} /\
       s2 = {| _executor := Some second; _own_executor := true |} /\
       first <> second /\
       pools w !! first = None /\ pools w !! second = None /\
       pools w1 = <[first := new_pool]> (pools w) /\
       pools w2 = <[second := new_pool]> (<[first := new_pool]> (pools w)) /\
       pools w2 !! first = Some new_pool /\
       pools w1 !! second = None).
Proof.
  split; [|split].
  - intros self w. split; reflexivity.
  - intros n pool w self. split; reflexivity.
  - intros n w self new_pool.
    set (first := fresh (dom (pools w))).
    set (second := fresh (dom (<[first := new_pool]> (pools w)))).
    assert (Hf1 : pools w !! first = None).
    { apply not_elem_of_dom. apply is_fresh. }
    assert (Hf2 : <[first := new_pool]> (pools w) !! second = None).
    { apply not_elem_of_dom. apply is_fresh. }
    assert (Hne : first <> second).
    { intros Heq. rewrite <- Heq, lookup_insert_eq in Hf2. discriminate. }
    assert (Hs2 : pools w !! second = None).
    { rewrite lookup_insert_ne in Hf2 by exact Hne. exact Hf2. }
    eexists first, second, _, _, _, _.
    split; [apply ParallelTaskExecutor_start_owning; reflexivity|].
    split.
    { unfold twice, mbind, M_bind.
      rewrite ParallelTaskExecutor_start_owning by reflexivity.
      rewrite ParallelTaskExecutor_start_owning by reflexivity.
      reflexivity. }
    split; [reflexivity|]. split; [reflexivity|]. split; [exact Hne|].
    split; [exact Hf1|]. split; [exact Hs2|].
    split; [reflexivity|]. split; [reflexivity|].
    split.
    { change (<[second := new_pool]> (<[first := new_pool]> (pools w))
                !! first = Some new_pool).
      rewrite lookup_insert_ne by auto. apply lookup_insert_eq. }
    exact Hf2.
Qed.

(** C10.  On a parallel executor built with no pool, [execute_task] and
    [revert_task] called before [start] return no future: they raise the
    AttributeError of [None.submit] and change nothing; and the same holds
    after [start] followed by [stop]. *)
Theorem submitting_without_a_pool_fails (n : nat) task (arguments : loc)
    (result failures : value) cb w :
  let self := ParallelTaskExecutor__init__ None in
  let no_pool := Raise (NoneType_has_no_attribute "submit") in
  ParallelTaskExecutor_execute_task self task arguments cb w = (no_pool, w) /\
  ParallelTaskExecutor_revert_task self task arguments result failures cb w =
    (no_pool, w) /\
  exists s1 w1 s2 w2,
    ParallelTaskExecutor_start n self w = (Ret s1, w1) /\
    ParallelTaskExecutor_stop s1 w1 = (Ret s2, w2) /\
    forall w3,
      ParallelTaskExecutor_execute_task s2 task arguments cb w3 =
        (no_pool, w3) /\
      ParallelTaskExecutor_revert_task s2 task arguments result failures
        cb w3 = (no_pool, w3).
Proof.
  intros self no_pool.
  split; [reflexivity|]. split; [reflexivity|].
  destruct (start_then_stop_owning n self w)
    as (s1 & w1 & s2 & w2 & Hstart & _ & _ & _ & _ & Hstop & Hs2 & _);
    [reflexivity|].
  exists s1, w1, s2, w2. split; [exact Hstart|]. split; [exact Hstop|].
  intros w3. apply ParallelTaskExecutor_submit_without_pool.
  rewrite Hs2. reflexivity.
Qed.

(** *** Two starts against one *)

(** A dangling reference stops [submit] and [shutdown] alike. *)
Lemma submit_alike pool1 pool2 (wk : work E) w1 w2 :
  pools w1 !! pool1 = pools w2 !! pool2 ->
  futs w1 = futs w2 ->
  fst (submit pool1 wk w1) = fst (submit pool2 wk w2) /\
  pools (snd (submit pool1 wk w1)) !! pool1 =
    pools (snd (submit pool2 wk w2)) !! pool2 /\
  (forall q, q <> pool1 ->
     pools (snd (submit pool1 wk w1)) !! q = pools w1 !! q) /\
  (forall q, q <> pool2 ->
     pools (snd (submit pool2 wk w2)) !! q = pools w2 !! q) /\
  futs (snd (submit pool1 wk w1)) = futs (snd (submit pool2 wk w2)) /\
  (env (snd (submit pool1 wk w1)) = env w1 /\
   heap (snd (submit pool1 wk w1)) = heap w1 /\
   trace (snd (submit pool1 wk w1)) = trace w1 /\
   generator_stop (snd (submit pool1 wk w1)) = generator_stop w1) /\
  (env (snd (submit pool2 wk w2)) = env w2 /\
   heap (snd (submit pool2 wk w2)) = heap w2 /\
   trace (snd (submit pool2 wk w2)) = trace w2 /\
   generator_stop (snd (submit pool2 wk w2)) = generator_stop w2).
Proof.
  intros Hp Hf. unfold submit. rewrite <- Hp, <- Hf.
  destruct (pools w1 !! pool1) as [p|] eqn:Hp1; [|cbn; rewrite <- Hp; auto 20].
  destruct (_shutdown p); [cbn; rewrite <- Hp; auto 20|]. cbn.
  rewrite !lookup_insert_eq.
  repeat split; try reflexivity;
    intros q Hq; apply lookup_insert_ne; congruence.
Qed.

(** Executors that are alike answer every call alike, and are alike
    after it. *)
Lemma alike_step (n : nat) (c : call E) (P0 : gmap loc (Pool E))
    (sw1 sw2 : ParallelTaskExecutor * world E) :
  alike P0 sw1 sw2 ->
  call_returns n c sw1 = call_returns n c sw2 /\
  alike P0 (make_call n c sw1) (make_call n c sw2).
Proof.
  destruct sw1 as [s1 w1], sw2 as [s2 w2].
  intros (Ho1 & Ho2 & Hheld & HP0 & Hown & Henv & Hheap & Hfuts & Htr & Hg).
  assert (Hfresh : forall w, pools w !! fresh (dom (pools w)) = None).
  { intros w. apply not_elem_of_dom, is_fresh. }
  set (sub := fun (s : ParallelTaskExecutor) (wk : work E) =>
                match _executor s with
                | Some pool => submit pool wk
                | None => raise (NoneType_has_no_attribute "submit")
                end).
  assert (Hsub : forall wk,
    match fst (sub s1 wk w1) with
    | Ret f => Ret (Some f)
    | Raise e => Raise e
    end =
    match fst (sub s2 wk w2) with
    | Ret f => Ret (Some f)
    | Raise e => Raise e
    end /\
    alike P0 (s1, snd (sub s1 wk w1)) (s2, snd (sub s2 wk w2))).
  { intros wk. unfold held_pool in Hheld. cbn in Hheld. subst sub. cbn beta.
    destruct (_executor s1) as [p1|] eqn:Hex1,
             (_executor s2) as [p2|] eqn:Hex2; try discriminate.
    - injection Hheld as Hheld.
      destruct (submit_alike p1 p2 wk w1 w2 Hheld Hfuts)
        as (Hr & Hl & Hk1 & Hk2 & Hf & (He1 & Hh1 & Ht1 & Hg1)
            & (He2 & Hh2 & Ht2 & Hg2)).
      split; [rewrite Hr; reflexivity|].
      unfold alike, held_pool. cbn. rewrite Hex1, Hex2. cbn.
      split; [exact Ho1|]. split; [exact Ho2|].
      split; [rewrite Hl; reflexivity|].
      split.
      { intros q Hq. destruct (HP0 q Hq) as [H1 H2].
        rewrite Hk1, Hk2; [auto| |].
        - intros ->. rewrite (Hown p2) in Hq by auto.
          destruct Hq; discriminate.
        - intros ->. rewrite (Hown p1) in Hq by auto.
          destruct Hq; discriminate. }
      split; [exact Hown|].
      rewrite He1, He2, Hh1, Hh2, Ht1, Ht2, Hg1, Hg2. auto.
    - split; [reflexivity|].
      unfold alike, held_pool. cbn. rewrite Hex1, Hex2. auto 10. }
  destruct c as [| |task arguments cb|task arguments result failures cb].
  - (* start *)
    cbn [call_returns make_call].
    rewrite !ParallelTaskExecutor_start_owning by assumption.
    split; [reflexivity|].
    unfold alike, held_pool. cbn. rewrite !lookup_insert_eq.
    split; [reflexivity|]. split; [reflexivity|]. split; [reflexivity|].
    split.
    { intros q Hq. destruct (HP0 q Hq) as [H1 H2].
      rewrite !lookup_insert_ne; [auto| |];
        intros Heq; subst q; rewrite ?Hfresh in H1, H2;
        destruct Hq as [x Hq]; congruence. }
    split; [|auto].
    intros pool [[= <-]|[= <-]].
    + destruct (P0 !! fresh (dom (pools w1))) eqn:H0; [|reflexivity].
      destruct (HP0 _ (mk_is_Some _ _ H0)) as [H1 _].
      rewrite Hfresh, H0 in H1. discriminate.
    + destruct (P0 !! fresh (dom (pools w2))) eqn:H0; [|reflexivity].
      destruct (HP0 _ (mk_is_Some _ _ H0)) as [_ H2].
      rewrite Hfresh, H0 in H2. discriminate.
  - (* stop *)
    cbn [call_returns make_call].
    unfold held_pool in Hheld. cbn in Hheld.
    destruct (_executor s1) as [p1|] eqn:Hex1,
             (_executor s2) as [p2|] eqn:Hex2; try discriminate.
    + injection Hheld as Hheld.
      destruct (pools w1 !! p1) as [p|] eqn:Hp1.
      * rewrite (ParallelTaskExecutor_stop_owning s1 w1 p1 p Ho1 Hex1 Hp1).
        rewrite (ParallelTaskExecutor_stop_owning s2 w2 p2 p Ho2 Hex2
                   (eq_sym Hheld)).
        split; [reflexivity|].
        unfold alike, held_pool. cbn.
        split; [reflexivity|]. split; [reflexivity|]. split; [reflexivity|].
        split.
        { intros q Hq. destruct (HP0 q Hq) as [H1 H2].
          rewrite !lookup_insert_ne; [auto| |].
          - intros ->. rewrite (Hown q) in Hq by auto.
            destruct Hq; discriminate.
          - intros ->. rewrite (Hown q) in Hq by auto.
            destruct Hq; discriminate. }
        split; [|auto]. intros pool [?|?]; discriminate.
      * assert (Hstop : forall s w pool,
          _own_executor s = true -> _executor s = Some pool ->
          pools w !! pool = None ->
          ParallelTaskExecutor_stop s w = (Raise dangling, w)).
        { intros s w pool Ho Hex Hp. unfold ParallelTaskExecutor_stop, shutdown.
          rewrite Ho, Hex. unfold mbind, M_bind. rewrite Hp. reflexivity. }
        rewrite (Hstop s1 w1 p1 Ho1 Hex1 Hp1).
        rewrite (Hstop s2 w2 p2 Ho2 Hex2 (eq_sym Hheld)).
        split; [reflexivity|].
        unfold alike. split; [exact Ho1|]. split; [exact Ho2|].
        split; [unfold held_pool; cbn; rewrite Hex1, Hex2; cbn; congruence|].
        rewrite Hex1, Hex2. auto 10.
    + rewrite (ParallelTaskExecutor_stop_without_pool s1 w1 Ho1 Hex1).
      rewrite (ParallelTaskExecutor_stop_without_pool s2 w2 Ho2 Hex2).
      split; [reflexivity|].
      unfold alike, held_pool. cbn. rewrite Hex1, Hex2. auto 10.
  - cbn [call_returns make_call].
    apply (Hsub (Work_execute_task task arguments cb)).
  - cbn [call_returns make_call].
    apply (Hsub (Work_revert_task task arguments result failures cb)).
Qed.

Lemma alike_observations (n : nat) (P0 : gmap loc (Pool E))
    (cs : list (call E)) (sw1 sw2 : ParallelTaskExecutor * world E) :
  alike P0 sw1 sw2 ->
  observations n cs sw1 = observations n cs sw2 /\
  alike P0 (make_calls n cs sw1) (make_calls n cs sw2).
Proof.
  revert sw1 sw2. induction cs as [|c cs IH]; intros sw1 sw2 Halike.
  - split; [reflexivity|exact Halike].
  - destruct (alike_step n c P0 sw1 sw2 Halike) as [Hret Hnext].
    destruct (IH _ _ Hnext) as [Hobs Hlast].
    cbn [observations]. unfold make_calls in *. cbn [fold_left].
    rewrite Hret, Hobs. split; [reflexivity|exact Hlast].
Qed.

(** C8.  [start] of the serial executor and of a parallel executor on a
    supplied pool returns and changes nothing, so that two calls in a row
    leave the state that one leaves.  On an owning parallel executor a
    second [start] is not observed: after one call or two the executor
    owns a pool with the same content (a new pool, live and empty), every
    pool that existed before is as it was, the tasks' state, the dicts, the
    futures and the trace are equal, and whatever sequence of [start],
    [stop], [execute_task] and [revert_task] calls follows, every call
    returns the same future or raises the same exception in both cases and
    leaves the two executors alike again.  (The two differ in the identity
    of the pool held and in the pool of the first call, which stays in the
    store with nothing referring to it.) *)
Theorem start_twice_is_not_observed :
  (forall (self : SerialTaskExecutor) (w : world E),
     twice SerialTaskExecutor_start SerialTaskExecutor_start self w =
       SerialTaskExecutor_start self w /\
     SerialTaskExecutor_start self w = (Ret self, w)) /\
  (forall (n : nat) pool w,
     let self := ParallelTaskExecutor__init__ (Some pool) in
     twice (ParallelTaskExecutor_start n) (ParallelTaskExecutor_start n)
       self w = ParallelTaskExecutor_start n self w /\
     ParallelTaskExecutor_start n self w = (Ret self, w)) /\
  (forall (n : nat) w,
     let self := ParallelTaskExecutor__init__ None in
     let new_pool := {| _max_workers := n; _shutdown := false;
                        _work_queue := [] |} : Pool E in
     exists s1 w1 s2 w2,
       ParallelTaskExecutor_start n self w = (Ret s1, w1) /\
       twice (ParallelTaskExecutor_start n) (ParallelTaskExecutor_start n)
         self w = (Ret s2, w2) /\
       _own_executor s1 = true /\ _own_executor s2 = true /\
       held_pool (s1, w1) = Some (Some new_pool) /\
       held_pool (s2, w2) = Some (Some new_pool) /\
       (forall q, is_Some (pools w !! q) ->
          pools w1 !! q = pools w !! q /\ pools w2 !! q = pools w !! q) /\
       env w1 = env w2 /\ heap w1 = heap w2 /\ futs w1 = futs w2 /\
       trace w1 = trace w2 /\
       (forall cs : list (call E),
          observations n cs (s1, w1) = observations n cs (s2, w2) /\
          alike (pools w) (make_calls n cs (s1, w1))
            (make_calls n cs (s2, w2)))).
Proof.
  split; [|split].
  - intros self w. split; reflexivity.
  - intros n pool w self. split; reflexivity.
  - intros n w self new_pool.
    destruct (proj2 (proj2 (start_twice_pools)) n w)
      as (first & second & s1 & w1 & s2 & w2 & Hone & Htwo & Hs1 & Hs2
          & Hne & Hf1 & Hf2 & Hp1 & Hp2 & Hl1 & Hl2).
    assert (Hworlds : env w1 = env w2 /\ heap w1 = heap w2 /\
                      futs w1 = futs w2 /\ trace w1 = trace w2 /\
                      generator_stop w1 = generator_stop w2).
    { revert Hone Htwo. unfold twice, mbind, M_bind.
      rewrite ParallelTaskExecutor_start_owning by reflexivity.
      rewrite ParallelTaskExecutor_start_owning by reflexivity.
      intros [= <- <-] [= <- <-]. cbn. auto. }
    destruct Hworlds as (Henv & Hheap & Hfuts & Htr & Hg).
    assert (Hheld1 : held_pool (s1, w1) = Some (Some new_pool)).
    { unfold held_pool. cbn. rewrite Hs1. cbn. rewrite Hp1.
      rewrite lookup_insert_eq. reflexivity. }
    assert (Hheld2 : held_pool (s2, w2) = Some (Some new_pool)).
    { unfold held_pool. cbn. rewrite Hs2. cbn. rewrite Hp2.
      rewrite lookup_insert_eq. reflexivity. }
    assert (Hold : forall q, is_Some (pools w !! q) ->
              pools w1 !! q = pools w !! q /\ pools w2 !! q = pools w !! q).
    { intros q Hq. rewrite Hp1, Hp2.
      assert (q <> first) by (intros ->; rewrite Hf1 in Hq;
                              destruct Hq; discriminate).
      assert (q <> second) by (intros ->; rewrite Hf2 in Hq;
                               destruct Hq; discriminate).
      rewrite !lookup_insert_ne by congruence. auto. }
    exists s1, w1, s2, w2.
    split; [exact Hone|]. split; [exact Htwo|].
    split; [rewrite Hs1; reflexivity|]. split; [rewrite Hs2; reflexivity|].
    split; [exact Hheld1|]. split; [exact Hheld2|]. split; [exact Hold|].
    split; [exact Henv|]. split; [exact Hheap|]. split; [exact Hfuts|].
    split; [exact Htr|].
    intros cs. apply alike_observations.
    unfold alike. split; [rewrite Hs1; reflexivity|].
    split; [rewrite Hs2; reflexivity|].
    split; [rewrite Hheld1, Hheld2; reflexivity|]. split; [exact Hold|].
    split; [|auto].
    intros pool. rewrite Hs1, Hs2. cbn. intros [[= <-]|[= <-]]; assumption.
Qed.

End ExecutorProperties.

(** ** The claims on sample tasks *)

(** The callback table once "update_progress" is bound in [w0]. *)
Example bound_table :
  bind answer_task "update_progress" _noop (env w0) =
    (Ret (), [("update_progress", _noop)]).
Proof. reflexivity. Qed.

(** C1 as stated fails on two tasks.  [interrupted_task]: execute raises
    KeyboardInterrupt, which [except Exception] does not catch, and the
    runner and the serial executor raise it.  [sticky_failing_task]:
    execute raises ValueError, unbind then raises RuntimeError, and the
    runner raises that instead of returning an outcome. *)
Lemma execute_fault_can_escape :
  fst (execute interrupted_task args_x1 [("update_progress", _noop)]) =
    Raise (Exn KeyboardInterrupt "") /\
  fst (_execute_task interrupted_task 0%nat _noop w0) =
    Raise (Exn KeyboardInterrupt "") /\
  fst (SerialTaskExecutor_execute_task SerialTaskExecutor__init__
         interrupted_task 0%nat _noop w0) =
    Raise (Exn KeyboardInterrupt "") /\
  fst (execute sticky_failing_task args_x1 [("update_progress", _noop)]) =
    Raise (Exn ValueError "boom") /\
  fst (_execute_task sticky_failing_task 0%nat _noop w0) =
    Raise (Exn RuntimeError "cannot unbind").
Proof. repeat split; vm_compute; reflexivity. Qed.

Lemma execute_fault_becomes_Failure_witness :
  exists w',
    _execute_task failing_task 0%nat _noop w0 =
      (Ret (failing_task, "executed", VFailure (Exn ValueError "boom")), w').
Proof.
  destruct (execute_fault_becomes_Failure failing_task 0%nat _noop w0 args_x1
              [("update_progress", _noop)] [("update_progress", _noop)] []
              (Exn ValueError "boom"))
    as [(w' & Hrun & _) _]; try reflexivity.
  exists w'. exact Hrun.
Defined.



(** On [failing_task] the callback is in the table once bound, and out of
    it after the run, although [execute] raised. *)
Lemma callback_unbound_exactly_once_witness :
  snd (bind failing_task "update_progress" _noop (env w0)) =
    [("update_progress", _noop)] /\
  exists r w',
    _execute_task failing_task 0%nat _noop w0 = (r, w') /\
    bind_count (trace w') = 1%nat /\ unbind_count (trace w') = 1%nat /\
    env w' = [].
Proof.
  split; [reflexivity|].
  destruct (callback_unbound_exactly_once failing_task 0%nat VNone
              VNone _noop w0 args_x1)
    as [(r & w' & added & Hrun & _ & _ & _ & _ & _ & Hb & Hu & Henv & _) _];
    [reflexivity|].
  exists r, w'. split; [exact Hrun|]. split; [exact Hb|].
  split; [exact Hu|]. rewrite Henv. reflexivity.
Defined.

(** C7 as stated fails on [sticky_task]: execute returns 42 and revert
    returns None, but unbind raises, and neither runner returns an
    outcome. *)
Lemma returned_value_lost_when_unbind_raises :
  fst (execute sticky_task args_x1 [("update_progress", _noop)]) =
    Ret (VInt 42) /\
  fst (_execute_task sticky_task 0%nat _noop w0) =
    Raise (Exn RuntimeError "cannot unbind") /\
  fst (SerialTaskExecutor_execute_task SerialTaskExecutor__init__
         sticky_task 0%nat _noop w0) =
    Raise (Exn RuntimeError "cannot unbind") /\
  fst (_revert_task sticky_task 0%nat (VInt 42) VNone _noop w0) =
    Raise (Exn RuntimeError "cannot unbind").
Proof. repeat split; vm_compute; reflexivity. Qed.

Lemma returned_value_is_the_result_witness :
  (exists w',
     _execute_task answer_task 0%nat _noop w0 =
       (Ret (answer_task, "executed", VInt 42), w')) /\
  (exists w',
     _revert_task answer_task 0%nat (VInt 42) VNone _noop w0 =
       (Ret (answer_task, "reverted", VNone), w')).
Proof.
  split.
  - apply (proj1 returned_value_is_the_result answer_task 0%nat _noop w0
             args_x1 [("update_progress", _noop)]
             [("update_progress", _noop)] [] (VInt 42)); reflexivity.
  - apply (proj2 returned_value_is_the_result answer_task 0%nat (VInt 42)
             VNone _noop w0 args_x1 [("update_progress", _noop)]
             [("update_progress", _noop)] [] VNone); reflexivity.
Defined.

(** C9 as stated fails on [broken_task]: bind raises ValueError, unbind
    raises KeyError, and the caller of the runner gets the KeyError.  It
    fails on [exhausted_task] too: bind raises StopIteration, unbind
    returns, and the caller gets a RuntimeError, on an interpreter with
    PEP 479 and on one without. *)
Lemma bind_fault_replaced_by_unbind_fault :
  fst (bind broken_task "update_progress" _noop (env w0)) =
    Raise (Exn ValueError "unknown event") /\
  fst (_execute_task broken_task 0%nat _noop w0) =
    Raise (Exn KeyError "update_progress") /\
  fst (_revert_task broken_task 0%nat VNone VNone _noop w0) =
    Raise (Exn KeyError "update_progress") /\
  fst (bind exhausted_task "update_progress" _noop (env w0)) =
    Raise (Exn StopIteration "") /\
  fst (_execute_task exhausted_task 0%nat _noop w0) =
    Raise (Exn RuntimeError "generator raised StopIteration") /\
  fst (_execute_task exhausted_task 0%nat _noop w0_legacy) =
    Raise (Exn RuntimeError "generator didn't yield").
Proof. repeat split; vm_compute; reflexivity. Qed.

Lemma bind_fault_propagates_witness :
  (exists w',
     _execute_task unbindable_task 0%nat _noop w0 =
       (Raise (Exn ValueError "unknown event"), w')) /\
  (exists w',
     _execute_task broken_task 0%nat _noop w0 =
       (Raise (Exn KeyError "update_progress"), w')) /\
  (exists w',
     _revert_task exhausted_task 0%nat VNone VNone _noop w0 =
       (Raise (Exn RuntimeError "generator raised StopIteration"), w')).
Proof.
  split; [|split].
  - destruct (bind_fault_propagates unbindable_task 0%nat VNone VNone _noop
                w0 args_x1 (Exn ValueError "unknown event") [])
      as [(w' & Hrun & _) _]; try reflexivity.
    exists w'. exact Hrun.
  - destruct (bind_fault_propagates broken_task 0%nat VNone VNone _noop
                w0 args_x1 (Exn ValueError "unknown event") [])
      as [(w' & Hrun & _) _]; try reflexivity.
    exists w'. exact Hrun.
  - destruct (bind_fault_propagates exhausted_task 0%nat VNone VNone _noop
                w0 args_x1 (Exn StopIteration "") [])
      as [_ (w' & Hrun & _)]; try reflexivity.
    exists w'. exact Hrun.
Defined.

(** C5 as stated fails on an owning parallel executor: [stop] before any
    [start] raises AttributeError, and so does the second of two [stop]s
    after a [start]. *)
Lemma owning_stop_is_not_idempotent :
  fst (ParallelTaskExecutor_stop (ParallelTaskExecutor__init__ None) w0) =
    Raise (Exn AttributeError
             "'NoneType' object has no attribute 'shutdown'") /\
  fst (twice (ParallelTaskExecutor_start 4) ParallelTaskExecutor_stop
         (ParallelTaskExecutor__init__ None) w0) =
    Ret {| _executor := None; _own_executor := true |} /\
  fst (twice (twice (ParallelTaskExecutor_start 4) ParallelTaskExecutor_stop)
         ParallelTaskExecutor_stop (ParallelTaskExecutor__init__ None) w0) =
    Raise (Exn AttributeError
             "'NoneType' object has no attribute 'shutdown'").
Proof. repeat split; vm_compute; reflexivity. Qed.

(** One [start] against two on an owning executor, then a submission, a
    [stop], a second [stop] and a [start]: the caller gets the same
    answers.  In the store, the pool held is pool 0 after one [start] and
    pool 1 after two, both new, live and empty. *)
Lemma start_twice_is_not_observed_witness :
  let self := ParallelTaskExecutor__init__ None in
  let cs := [Call_execute_task answer_task 0%nat _noop; Call_stop; Call_stop;
             Call_start; Call_revert_task answer_task 0%nat VNone VNone _noop]
  in
  observations 4 cs (make_calls 4 [Call_start] (self, w0)) =
    observations 4 cs (make_calls 4 [Call_start; Call_start] (self, w0)) /\
  observations 4 cs (make_calls 4 [Call_start] (self, w0)) =
    [Ret (Some 0%nat); Ret None;
     Raise (Exn AttributeError
              "'NoneType' object has no attribute 'shutdown'");
     Ret None; Ret (Some 1%nat)] /\
  fst (make_calls 4 [Call_start] (self, w0)) =
    {| _executor := Some 0%nat; _own_executor := true |} /\
  fst (make_calls 4 [Call_start; Call_start] (self, w0)) =
    {| _executor := Some 1%nat; _own_executor := true |}.
Proof.
  cbv zeta. split; [|repeat split; vm_compute; reflexivity].
  destruct (proj2 (proj2 start_twice_is_not_observed) 4%nat w0)
    as (s1 & w1 & s2 & w2 & Hone & Htwo & _ & _ & _ & _ & _ & _ & _ & _ & _
        & Hobs).
  assert (H1 : make_calls 4 [Call_start]
                 (ParallelTaskExecutor__init__ None, w0) = (s1, w1)).
  { unfold make_calls. cbn [fold_left]. unfold make_call. rewrite Hone.
    reflexivity. }
  assert (H2 : make_calls 4 [Call_start; Call_start]
                 (ParallelTaskExecutor__init__ None, w0) = (s2, w2)).
  { change (make_calls 4 [Call_start; Call_start]
              (ParallelTaskExecutor__init__ None, w0))
      with (make_call 4 Call_start
              (make_calls 4 [Call_start]
                 (ParallelTaskExecutor__init__ None, w0))).
    rewrite H1. revert Htwo. unfold twice, mbind, M_bind. rewrite Hone.
    unfold make_call. intros ->. reflexivity. }
  rewrite H1, H2.
  apply Hobs.
Defined.

(** A supplied pool is usable before and after [stop]. *)
Lemma stop_spares_a_borrowed_pool_witness :
  let w := snd (ThreadPoolExecutor 4 w0) in
  usable w 0%nat /\
  exists w',
    ParallelTaskExecutor_stop (ParallelTaskExecutor__init__ (Some 0%nat)) w =
      (Ret (ParallelTaskExecutor__init__ (Some 0%nat)), w') /\
    usable w' 0%nat.
Proof.
  cbv zeta.
  assert (Hu : usable (snd (ThreadPoolExecutor 4 w0)) 0%nat).
  { eapply usable_live; reflexivity. }
  split; [exact Hu|].
  destruct (proj1 stop_spares_a_borrowed_pool 0%nat
              (snd (ThreadPoolExecutor 4 w0)))
    as (w' & Hstop & _ & _ & Hkeep).
  exists w'. split; [exact Hstop|]. exact (Hkeep Hu).
Defined.

Lemma stop_without_an_owned_pool_witness :
  exists pool s1 w1 s2 w2,
    ParallelTaskExecutor_start 4 (ParallelTaskExecutor__init__ None) w0 =
      (Ret s1, w1) /\
    _executor s1 = Some pool /\
    ParallelTaskExecutor_stop s1 w1 = (Ret s2, w2) /\
    _executor s2 = None.
Proof.
  destruct (proj1 (proj2 (proj2 stop_without_an_owned_pool)) 4%nat w0)
    as (pool & s1 & w1 & s2 & w2 & p & H1 & H2 & _ & H3 & H4 & _).
  exists pool, s1, w1, s2, w2. auto.
Defined.

Lemma serial_wait_for_any_returns_all_witness :
  exists f w1,
    SerialTaskExecutor_execute_task SerialTaskExecutor__init__ answer_task
      0%nat _noop w0 = (Ret f, w1) /\
    done w1 f = true /\
    SerialTaskExecutor_wait_for_any SerialTaskExecutor__init__ [f] w1 =
      (Ret ([f], []), w1).
Proof.
  eexists _, _. split; [vm_compute; reflexivity|].
  split.
  - eapply (proj1 (proj2 (serial_wait_for_any_returns_all
              SerialTaskExecutor__init__ [] w0)) answer_task 0%nat _noop w0).
    vm_compute. reflexivity.
  - apply (proj1 (serial_wait_for_any_returns_all
              SerialTaskExecutor__init__ _ _)).
Defined.

(** ** More on the runners *)

Section MoreRunnerProperties.

Context {E : Type}.

Implicit Types (task : Task E) (w : world E) (cb : callback) (d : dict).

(** A runner never writes the futures or the pools, also when its
    arguments refer to nothing. *)
Lemma _execute_task_futs_pools task (arguments : loc) cb w r w' :
  _execute_task task arguments cb w = (r, w') ->
  futs w' = futs w /\ pools w' = pools w.
Proof.
  destruct (heap w !! arguments) as [d|] eqn:Hd.
  - rewrite (_execute_task_run _ _ _ _ _ Hd). cbn zeta.
    destruct (bind task _ cb (env w)) as [[[]|eb] e1].
    + destruct (execute task d e1) as [rx e2].
      destruct (unbind task _ cb e2) as [ru e3].
      intros [= <- <-]. split; reflexivity.
    + destruct (unbind task _ cb e1) as [ru e2].
      intros [= <- <-]. split; reflexivity.
  - unfold _execute_task. unfold mbind at 1, M_bind at 1.
    rewrite _autobind_run. cbn zeta.
    destruct (bind task _ cb (env w)) as [[[]|eb] e1].
    + run_M. rewrite Hd; cbn.
      destruct (unbind task _ cb e1) as [ru e3].
      destruct (with_result _ _ ru) as [[v|]|e];
        intros [= <- <-]; split; reflexivity.
    + destruct (unbind task _ cb e1) as [ru e3].
      intros [= <- <-]. split; reflexivity.
Qed.

Lemma _revert_task_futs_pools task (arguments : loc)
    (result failures : value) cb w r w' :
  _revert_task task arguments result failures cb w = (r, w') ->
  futs w' = futs w /\ pools w' = pools w.
Proof.
  destruct (heap w !! arguments) as [d|] eqn:Hd.
  - rewrite (_revert_task_run _ _ _ _ _ _ _ Hd). cbn zeta.
    destruct (bind task _ cb (env w)) as [[[]|eb] e1].
    + destruct (revert task _ e1) as [rx e2].
      destruct (unbind task _ cb e2) as [ru e3].
      intros [= <- <-]. split; reflexivity.
    + destruct (unbind task _ cb e1) as [ru e2].
      intros [= <- <-]. split; reflexivity.
  - unfold _revert_task, dict_copy. unfold mbind at 1, M_bind at 1.
    rewrite Hd. intros [= <- <-]. split; reflexivity.
Qed.

(** The same normalization in [_revert_task]: when [bind] has returned,
    [revert] raises an instance of [Exception] on the extended arguments
    and [unbind] returns, the runner returns [(task, "reverted", Failure)]
    and the serial [revert_task] a future resolved with it. *)
Theorem revert_fault_is_normalized task (arguments : loc)
    (result failures : value) cb w d (e1 e2 e3 : E) (exc : exn) :
  heap w !! arguments = Some d ->
  bind task "update_progress" cb (env w) = (Ret (), e1) ->
  revert task (revert_kwargs d result failures) e1 = (Raise exc, e2) ->
  isinstance_Exception exc = true ->
  unbind task "update_progress" cb e2 = (Ret (), e3) ->
  (exists w',
     _revert_task task arguments result failures cb w =
       (Ret (task, "reverted", VFailure exc), w') /\ env w' = e3) /\
  (exists f w',
     SerialTaskExecutor_revert_task SerialTaskExecutor__init__
       task arguments result failures cb w = (Ret f, w') /\
     futs w' !! f = Some (resolved (task, "reverted", VFailure exc))).
Proof.
  intros Hd Hb Hx Hexc Hu.
  assert (Hrun : exists w',
     _revert_task task arguments result failures cb w =
       (Ret (task, "reverted", VFailure exc), w') /\ env w' = e3).
  { rewrite (_revert_task_run _ _ _ _ _ _ _ Hd). cbn zeta.
    rewrite Hb, Hx, Hu, runner_result_unbound_normally.
    unfold normalized. rewrite Hexc.
    eexists. split; reflexivity. }
  split; [exact Hrun|]. destruct Hrun as (w1 & Hrun & _).
  destruct (serial_future_of_outcome _ _ _ _ Hrun) as (f & w' & ? & ? & _).
  eauto.
Qed.

(** A fault that is no instance of [Exception] is not wrapped: when [bind]
    has returned and [unbind] returns, the runner raises the very exception
    that [execute] raised, after having called [unbind]; the serial
    [execute_task] raises it too and makes no future. *)
Theorem non_Exception_fault_propagates task (arguments : loc) cb w d
    (e1 e2 e3 : E) (exc : exn) :
  heap w !! arguments = Some d ->
  bind task "update_progress" cb (env w) = (Ret (), e1) ->
  execute task d e1 = (Raise exc, e2) ->
  isinstance_Exception exc = false ->
  unbind task "update_progress" cb e2 = (Ret (), e3) ->
  exists w',
    _execute_task task arguments cb w = (Raise exc, w') /\
    SerialTaskExecutor_execute_task SerialTaskExecutor__init__
      task arguments cb w = (Raise exc, w') /\
    trace w' =
      (trace w ++ [CallBind task "update_progress" cb; CallExecute task d;
                   CallUnbind task "update_progress" cb])%list /\
    env w' = e3 /\ futs w' = futs w.
Proof.
  intros Hd Hb Hx Hexc Hu.
  assert (Hrun : exists w',
    _execute_task task arguments cb w = (Raise exc, w') /\
    trace w' =
      (trace w ++ [CallBind task "update_progress" cb; CallExecute task d;
                   CallUnbind task "update_progress" cb])%list /\
    env w' = e3 /\ futs w' = futs w).
  { rewrite (_execute_task_run _ _ _ _ _ Hd). cbn zeta.
    rewrite Hb, Hx, Hu, runner_result_unbound_normally.
    unfold normalized. rewrite Hexc.
    eexists. split; [reflexivity|]. cbn. auto. }
  destruct Hrun as (w' & Hrun & Htr & He & Hf).
  exists w'. split; [exact Hrun|]. split; [|auto].
  rewrite SerialTaskExecutor_execute_task_run, Hrun. reflexivity.
Qed.

(** What the [with] statement raises for an exception of [unbind] that
    leaves the generator as something else than a StopIteration. *)
Lemma runner_result_unbind_raises (pep479 : bool) task (verb : string)
    (before rx : res value) (eu : exn) :
  isinstance_StopIteration (leaves_generator pep479 eu) = false ->
  runner_result pep479 task verb before rx (Raise eu) =
    Raise (leaves_generator pep479 eu).
Proof.
  intros Hstop. unfold runner_result, with_result. rewrite Hstop.
  reflexivity.
Qed.

(** An exception of [unbind] masks whatever the operation did.  When [bind]
    has returned and [unbind] raises [eu], [eu] leaves the generator of
    [_autobind] as [raised]: [eu] itself, or, for a StopIteration on an
    interpreter with PEP 479, the RuntimeError made of it.  Unless [raised]
    is a StopIteration (which the context manager takes for the end of the
    generator), both runners raise [raised], be it that the operation
    returned a value, raised an [Exception] (which the handler had already
    turned into a Failure) or raised anything else. *)
Theorem unbind_fault_masks_the_operation :
  (forall task (arguments : loc) cb w d (e1 e2 e3 : E) (rx : res value)
          (eu : exn),
     let raised := leaves_generator (generator_stop w) eu in
     heap w !! arguments = Some d ->
     bind task "update_progress" cb (env w) = (Ret (), e1) ->
     execute task d e1 = (rx, e2) ->
     unbind task "update_progress" cb e2 = (Raise eu, e3) ->
     isinstance_StopIteration raised = false ->
     (isinstance_StopIteration eu = false -> raised = eu) /\
     (isinstance_StopIteration eu = true ->
      raised = Exn RuntimeError "generator raised StopIteration") /\
     exists w',
       _execute_task task arguments cb w = (Raise raised, w') /\
       SerialTaskExecutor_execute_task SerialTaskExecutor__init__
         task arguments cb w = (Raise raised, w') /\
       env w' = e3 /\ futs w' = futs w) /\
  (forall task (arguments : loc) (result failures : value) cb w d
          (e1 e2 e3 : E) (rx : res value) (eu : exn),
     let raised := leaves_generator (generator_stop w) eu in
     heap w !! arguments = Some d ->
     bind task "update_progress" cb (env w) = (Ret (), e1) ->
     revert task (revert_kwargs d result failures) e1 = (rx, e2) ->
     unbind task "update_progress" cb e2 = (Raise eu, e3) ->
     isinstance_StopIteration raised = false ->
     (isinstance_StopIteration eu = false -> raised = eu) /\
     (isinstance_StopIteration eu = true ->
      raised = Exn RuntimeError "generator raised StopIteration") /\
     exists w',
       _revert_task task arguments result failures cb w = (Raise raised, w') /\
       SerialTaskExecutor_revert_task SerialTaskExecutor__init__
         task arguments result failures cb w = (Raise raised, w') /\
       env w' = e3 /\ futs w' = futs w).
Proof.
  assert (Hraised : forall (pep479 : bool) (eu : exn),
    isinstance_StopIteration (leaves_generator pep479 eu) = false ->
    (isinstance_StopIteration eu = false -> leaves_generator pep479 eu = eu) /\
    (isinstance_StopIteration eu = true ->
     leaves_generator pep479 eu =
       Exn RuntimeError "generator raised StopIteration")).
  { intros pep479 eu. unfold leaves_generator.
    destruct pep479, (isinstance_StopIteration eu) eqn:Hstop; cbn;
      rewrite ?Hstop; split; intros; congruence. }
  split.
  - intros task arguments cb w d e1 e2 e3 rx eu raised Hd Hb Hx Hu Hstop.
    destruct (Hraised _ _ Hstop) as [Hsame Hconv].
    split; [exact Hsame|]. split; [exact Hconv|].
    assert (Hrun : exists w',
      _execute_task task arguments cb w = (Raise raised, w') /\
      env w' = e3 /\ futs w' = futs w).
    { rewrite (_execute_task_run _ _ _ _ _ Hd). cbn zeta.
      rewrite Hb, Hx, Hu, runner_result_unbind_raises by exact Hstop.
      eexists. split; [reflexivity|]. split; reflexivity. }
    destruct Hrun as (w' & Hrun & He & Hf). exists w'.
    split; [exact Hrun|]. split; [|split; assumption].
    rewrite SerialTaskExecutor_execute_task_run, Hrun. reflexivity.
  - intros task arguments result failures cb w d e1 e2 e3 rx eu raised
      Hd Hb Hx Hu Hstop.
    destruct (Hraised _ _ Hstop) as [Hsame Hconv].
    split; [exact Hsame|]. split; [exact Hconv|].
    assert (Hrun : exists w',
      _revert_task task arguments result failures cb w = (Raise raised, w') /\
      env w' = e3 /\ futs w' = futs w).
    { rewrite (_revert_task_run _ _ _ _ _ _ _ Hd). cbn zeta.
      rewrite Hb, Hx, Hu, runner_result_unbind_raises by exact Hstop.
      eexists. split; [reflexivity|]. split; reflexivity. }
    destruct Hrun as (w' & Hrun & He & Hf). exists w'.
    split; [exact Hrun|]. split; [|split; assumption].
    rewrite SerialTaskExecutor_revert_task_run, Hrun. reflexivity.
Qed.

(** [_execute_task] hands the caller's items to [execute] as they are:
    when [bind] returns, [execute] is called once, between [bind] and
    [unbind], with the items of [arguments], and [revert] is not called;
    and whatever the task does, no dict, future or pool is written. *)
Theorem execute_gets_the_arguments_as_they_are task (arguments : loc) cb
    w d :
  heap w !! arguments = Some d ->
  exists r w',
    _execute_task task arguments cb w = (r, w') /\
    heap w' = heap w /\ futs w' = futs w /\ pools w' = pools w /\
    (forall e1 : E,
       bind task "update_progress" cb (env w) = (Ret (), e1) ->
       trace w' =
         (trace w ++ [CallBind task "update_progress" cb;
                      CallExecute task d;
                      CallUnbind task "update_progress" cb])%list).
Proof.
  intros Hd. rewrite (_execute_task_run _ _ _ _ _ Hd). cbn zeta.
  destruct (bind task _ cb (env w)) as [[[]|eb] e1].
  - destruct (execute task d e1) as [rx e2].
    destruct (unbind task _ cb e2) as [ru e3].
    eexists _, _. split; [reflexivity|]. cbn. auto.
  - destruct (unbind task _ cb e1) as [ru e2].
    eexists _, _. split; [reflexivity|]. cbn.
    repeat split; auto. intros e1' Hb. discriminate Hb.
Qed.

(** [_revert_task] makes exactly one new dict, before it binds anything
    and hence also when [bind] raises.  The new dict maps "result" and
    "flow_failures" to the values given, over any entry the caller's
    arguments had under these keys, and agrees with the caller's arguments
    on every other key. *)
Theorem revert_kwargs_shadow_the_arguments task (arguments : loc)
    (result failures : value) cb w d :
  heap w !! arguments = Some d ->
  exists r w' (kwargs : loc) (kw : dict),
    _revert_task task arguments result failures cb w = (r, w') /\
    heap w !! kwargs = None /\
    heap w' = <[kwargs := kw]> (heap w) /\
    kw !! "result" = Some result /\
    kw !! "flow_failures" = Some failures /\
    (forall k : string,
       k <> "result" -> k <> "flow_failures" -> kw !! k = d !! k) /\
    dom kw = dom d ∪ {["result"; "flow_failures"]}.
Proof.
  intros Hd. rewrite (_revert_task_run _ _ _ _ _ _ _ Hd). cbn zeta.
  assert (Hfresh : heap w !! fresh (dom (heap w)) = None).
  { apply not_elem_of_dom. apply is_fresh. }
  assert (Hkw : revert_kwargs d result failures !! "result" = Some result /\
     revert_kwargs d result failures !! "flow_failures" = Some failures /\
     (forall k : string,
        k <> "result" -> k <> "flow_failures" ->
        revert_kwargs d result failures !! k = d !! k) /\
     dom (revert_kwargs d result failures) =
       dom d ∪ {["result"; "flow_failures"]}).
  { unfold revert_kwargs. split; [|split; [|split]].
    - rewrite lookup_insert_ne by discriminate. apply lookup_insert_eq.
    - apply lookup_insert_eq.
    - intros k H1 H2. rewrite !lookup_insert_ne by congruence. reflexivity.
    - rewrite !dom_insert_L. apply set_eq. intros k.
      rewrite !elem_of_union, !elem_of_singleton. tauto. }
  destruct Hkw as (H1 & H2 & H3 & H4).
  destruct (bind task _ cb (env w)) as [[[]|eb] e1].
  - destruct (revert task _ e1) as [rx e2].
    destruct (unbind task _ cb e2) as [ru e3].
    eexists _, _, (fresh (dom (heap w))), (revert_kwargs d result failures).
    split; [reflexivity|]. cbn. auto 10.
  - destruct (unbind task _ cb e1) as [ru e2].
    eexists _, _, (fresh (dom (heap w))), (revert_kwargs d result failures).
    split; [reflexivity|]. cbn. auto 10.
Qed.

End MoreRunnerProperties.

(** ** More on the executors *)

Section MoreExecutorProperties.

Context {E : Type}.

Implicit Types (task : Task E) (w : world E) (cb : callback) (d : dict).
Implicit Types (self : ParallelTaskExecutor) (pool : loc).

(** *** The serial executor *)

(** What wrapping an outcome does to the futures: one new entry. *)
Lemma wrapped_outcome_is_a_new_future (run : M E (outcome E)) w f w' :
  (forall r w1, run w = (r, w1) -> futs w1 = futs w /\ pools w1 = pools w) ->
  (o ← run; _completed_future o) w = (Ret f, w') ->
  futs w !! f = None /\ done w' f = true /\
  (forall g, g <> f -> futs w' !! g = futs w !! g) /\
  pools w' = pools w.
Proof.
  intros Hframe. unfold mbind, M_bind.
  destruct (run w) as [[o|e] w1] eqn:Hrun; [|discriminate].
  destruct (Hframe _ _ eq_refl) as [Hf Hp].
  rewrite _completed_future_run. intros [= <- <-]. cbn.
  rewrite Hf, Hp. split; [apply not_elem_of_dom, is_fresh|].
  split; [unfold done; cbn; rewrite ?Hf, lookup_insert_eq; reflexivity|].
  split; [|reflexivity].
  intros g Hg. apply lookup_insert_ne. congruence.
Qed.

(** A future returned by the serial executor is a new one, done from the
    start, and making it leaves every other future and every pool as it
    was: futures returned earlier stay as they are. *)
Theorem serial_futures_are_new :
  (forall (self : SerialTaskExecutor) task (arguments : loc) cb w f w',
     SerialTaskExecutor_execute_task self task arguments cb w = (Ret f, w') ->
     futs w !! f = None /\ done w' f = true /\
     (forall g, g <> f -> futs w' !! g = futs w !! g) /\
     pools w' = pools w) /\
  (forall (self : SerialTaskExecutor) task (arguments : loc)
          (result failures : value) cb w f w',
     SerialTaskExecutor_revert_task self task arguments result failures cb w =
       (Ret f, w') ->
     futs w !! f = None /\ done w' f = true /\
     (forall g, g <> f -> futs w' !! g = futs w !! g) /\
     pools w' = pools w).
Proof.
  split.
  - intros self task arguments cb w f w'.
    apply wrapped_outcome_is_a_new_future.
    intros r w1. apply _execute_task_futs_pools.
  - intros self task arguments result failures cb w f w'.
    apply wrapped_outcome_is_a_new_future.
    intros r w1. apply _revert_task_futs_pools.
Qed.

(** Two calls in a row on the serial executor return two different
    futures, both done after the second call. *)
Theorem serial_futures_are_distinct (self : SerialTaskExecutor)
    (task1 task2 : Task E) (arguments1 arguments2 : loc) (cb1 cb2 : callback)
    w f1 w1 f2 w2 :
  SerialTaskExecutor_execute_task self task1 arguments1 cb1 w =
    (Ret f1, w1) ->
  SerialTaskExecutor_execute_task self task2 arguments2 cb2 w1 =
    (Ret f2, w2) ->
  f1 <> f2 /\ done w2 f1 = true /\ done w2 f2 = true.
Proof.
  intros H1 H2.
  apply wrapped_outcome_is_a_new_future in H1 as (_ & Hd1 & _ & _);
    [|intros r w'; apply _execute_task_futs_pools].
  apply wrapped_outcome_is_a_new_future in H2 as (Hn2 & Hd2 & Hkeep & _);
    [|intros r w'; apply _execute_task_futs_pools].
  assert (Hne : f1 <> f2).
  { intros ->. unfold done in Hd1. rewrite Hn2 in Hd1. discriminate. }
  split; [exact Hne|]. split; [|exact Hd2].
  unfold done in *. rewrite Hkeep by exact Hne. exact Hd1.
Qed.

(** *** The parallel executor *)

(** An owning executor can be started again after [stop].  The first
    [start] makes the pool [first], which takes work; [stop] shuts it down
    and leaves the executor with no pool; the second [start] gives the
    executor a new pool [second], which takes work, while [first] is still
    in the store, shut down, and refuses work. *)
Theorem owning_executor_restarts (n : nat) w :
  exists first second s1 w1 s2 w2 s3 w3,
    ParallelTaskExecutor_start n (ParallelTaskExecutor__init__ None) w =
      (Ret s1, w1) /\
    ParallelTaskExecutor_stop s1 w1 = (Ret s2, w2) /\
    ParallelTaskExecutor_start n s2 w2 = (Ret s3, w3) /\
    twice (twice (ParallelTaskExecutor_start n) ParallelTaskExecutor_stop)
      (ParallelTaskExecutor_start n) (ParallelTaskExecutor__init__ None) w =
      (Ret s3, w3) /\
    s1 = {| _executor := Some first; _own_executor := true |} /\
    s2 = {| _executor := None; _own_executor := true |} /\
    s3 = {| _executor := Some second; _own_executor := true |} /\
    first <> second /\
    pools w !! first = None /\ pools w !! second = None /\
    pools w1 !! first =
      Some {| _max_workers := n; _shutdown := false; _work_queue := [] |} /\
    usable w1 first /\
    pools w2 !! first =
      Some {| _max_workers := n; _shutdown := true; _work_queue := [] |} /\
    ~ usable w2 first /\
    pools w3 !! first =
      Some {| _max_workers := n; _shutdown := true; _work_queue := [] |} /\
    ~ usable w3 first /\
    pools w3 !! second =
      Some {| _max_workers := n; _shutdown := false; _work_queue := [] |} /\
    usable w3 second /\
    (forall q, q <> first -> q <> second -> pools w3 !! q = pools w !! q).
Proof.
  destruct (start_then_stop_owning n (ParallelTaskExecutor__init__ None) w)
    as (s1 & w1 & s2 & w2 & Hstart & Hs1 & Hown1 & Hf1 & Hp1 & Hstop & Hs2
        & Hp2);
    [reflexivity|].
  set (first := fresh (dom (pools w))) in *.
  set (second := fresh (dom (pools w2))).
  assert (Hf2 : pools w2 !! second = None).
  { apply not_elem_of_dom, is_fresh. }
  assert (Hne : first <> second).
  { intros Heq. rewrite <- Heq, Hp2, lookup_insert_eq in Hf2. discriminate. }
  assert (Hrestart : ParallelTaskExecutor_start n s2 w2 =
    (Ret {| _executor := Some second; _own_executor := true |},
     set_pools (<[second := {| _max_workers := n; _shutdown := false;
                               _work_queue := [] |}]> (pools w2)) w2)).
  { apply ParallelTaskExecutor_start_owning. rewrite Hs2. reflexivity. }
  assert (Hl1 : pools w1 !! first =
    Some {| _max_workers := n; _shutdown := false; _work_queue := [] |}).
  { rewrite Hp1. apply lookup_insert_eq. }
  assert (Hl2 : pools w2 !! first =
    Some {| _max_workers := n; _shutdown := true; _work_queue := [] |}).
  { rewrite Hp2. apply lookup_insert_eq. }
  exists first, second, s1, w1, s2, w2. eexists _, _.
  split; [exact Hstart|]. split; [exact Hstop|]. split; [exact Hrestart|].
  split.
  { unfold twice, mbind, M_bind. rewrite Hstart, Hstop. exact Hrestart. }
  split.
  { destruct s1 as [ex own]. cbn in Hs1, Hown1. subst ex own. reflexivity. }
  split; [exact Hs2|]. split; [reflexivity|]. split; [exact Hne|].
  split; [exact Hf1|].
  split.
  { rewrite Hp2, lookup_insert_ne in Hf2 by exact Hne. exact Hf2. }
  split; [exact Hl1|].
  split; [eapply usable_live; [exact Hl1|reflexivity]|].
  split; [exact Hl2|].
  split; [eapply not_usable_after_shutdown; [exact Hl2|reflexivity]|].
  assert (Hl3 : pools (set_pools
      (<[second := {| _max_workers := n; _shutdown := false;
                      _work_queue := [] |}]> (pools w2)) w2) !! first =
    Some {| _max_workers := n; _shutdown := true; _work_queue := [] |}).
  { cbn. rewrite lookup_insert_ne by auto. exact Hl2. }
  split; [exact Hl3|].
  split; [eapply not_usable_after_shutdown; [exact Hl3|reflexivity]|].
  split; [cbn; apply lookup_insert_eq|].
  split; [eapply usable_live; [cbn; apply lookup_insert_eq|reflexivity]|].
  intros q Hq1 Hq2. cbn. rewrite lookup_insert_ne by auto.
  rewrite Hp2. apply lookup_insert_ne. auto.
Qed.

(** *** Any sequence of calls on a parallel executor *)

(** What an owning executor keeps true from its construction on. *)
Lemma owning_invariant_step (n : nat) (c : call E)
    (P0 : gmap loc (Pool E)) self w :
  _own_executor self = true ->
  (forall q, is_Some (P0 !! q) -> pools w !! q = P0 !! q) ->
  (forall pool, _executor self = Some pool ->
     P0 !! pool = None /\
     exists p, pools w !! pool = Some p /\ _shutdown p = false) ->
  let (self', w') := make_call n c (self, w) in
  _own_executor self' = true /\
  (forall q, is_Some (P0 !! q) -> pools w' !! q = P0 !! q) /\
  (forall pool, _executor self' = Some pool ->
     P0 !! pool = None /\
     exists p, pools w' !! pool = Some p /\ _shutdown p = false).
Proof.
  intros Hown Hold Hlive.
  assert (Hsub : forall wk pool, _executor self = Some pool ->
    (forall q, is_Some (P0 !! q) ->
       pools (snd (submit pool wk w)) !! q = P0 !! q) /\
    (forall pool', _executor self = Some pool' ->
       P0 !! pool' = None /\
       exists p, pools (snd (submit pool wk w)) !! pool' = Some p /\
                 _shutdown p = false)).
  { intros wk pool Hex.
    destruct (Hlive pool Hex) as (Hnew & p & Hp & Hs).
    unfold submit. rewrite Hp, Hs. cbn. split.
    - intros q Hq. rewrite lookup_insert_ne; [auto|].
      intros ->. rewrite Hnew in Hq. destruct Hq; discriminate.
    - intros pool' Hex'. split; [apply (Hlive pool' Hex')|].
      assert (pool' = pool) as -> by congruence.
      rewrite lookup_insert_eq. eauto. }
  destruct c as [| |task arguments cb|task arguments result failures cb];
    cbn.
  - rewrite ParallelTaskExecutor_start_owning by exact Hown. cbn.
    assert (Hfresh : pools w !! fresh (dom (pools w)) = None).
    { apply not_elem_of_dom, is_fresh. }
    split; [reflexivity|]. split.
    + intros q Hq. rewrite lookup_insert_ne; [auto|].
      intros Heq. subst q. pose proof (Hold _ Hq) as Hsame.
      rewrite Hfresh in Hsame. rewrite <- Hsame in Hq.
      destruct Hq; discriminate.
    + intros pool [= <-]. split.
      * destruct (P0 !! fresh (dom (pools w))) eqn:H0; [|reflexivity].
        pose proof (Hold _ (mk_is_Some _ _ H0)) as Hsame.
        rewrite Hfresh, H0 in Hsame. discriminate.
      * rewrite lookup_insert_eq. eauto.
  - destruct (_executor self) as [pool|] eqn:Hex.
    + destruct (Hlive pool eq_refl) as (Hnew & p & Hp & Hs).
      rewrite (ParallelTaskExecutor_stop_owning self w pool p Hown Hex Hp).
      cbn. split; [reflexivity|]. split; [|discriminate].
      intros q Hq. rewrite lookup_insert_ne; [auto|].
      intros ->. rewrite Hnew in Hq. destruct Hq; discriminate.
    + rewrite (ParallelTaskExecutor_stop_without_pool self w Hown Hex).
      rewrite Hex. auto.
  - unfold ParallelTaskExecutor_execute_task.
    destruct (_executor self) as [pool|] eqn:Hex.
    + destruct (Hsub (Work_execute_task task arguments cb) pool eq_refl).
      auto.
    + cbn. auto.
  - unfold ParallelTaskExecutor_revert_task.
    destruct (_executor self) as [pool|] eqn:Hex.
    + destruct (Hsub (Work_revert_task task arguments result failures cb)
                  pool eq_refl).
      auto.
    + cbn. auto.
Qed.

Lemma owning_invariant (n : nat) (P0 : gmap loc (Pool E))
    (cs : list (call E)) self w :
  _own_executor self = true ->
  (forall q, is_Some (P0 !! q) -> pools w !! q = P0 !! q) ->
  (forall pool, _executor self = Some pool ->
     P0 !! pool = None /\
     exists p, pools w !! pool = Some p /\ _shutdown p = false) ->
  let (self', w') := make_calls n cs (self, w) in
  _own_executor self' = true /\
  (forall q, is_Some (P0 !! q) -> pools w' !! q = P0 !! q) /\
  (forall pool, _executor self' = Some pool ->
     P0 !! pool = None /\
     exists p, pools w' !! pool = Some p /\ _shutdown p = false).
Proof.
  unfold make_calls. revert self w.
  induction cs as [|c cs IH]; intros self w Hown Hold Hlive.
  - cbn. auto.
  - cbn [fold_left].
    pose proof (owning_invariant_step n c P0 self w Hown Hold Hlive)
      as Hstep.
    destruct (make_call n c (self, w)) as [self1 w1].
    destruct Hstep as (Hown1 & Hold1 & Hlive1).
    apply IH; assumption.
Qed.

(** Whatever calls are made on an executor built with no pool, in whatever
    order and whether they return or raise: no pool that existed when the
    executor was built is ever changed, and the executor never holds a pool
    that is shut down or that it did not make itself. *)
Theorem owning_executor_keeps_to_its_own_pools (n : nat)
    (cs : list (call E)) w0 :
  let (self, w) := make_calls n cs (ParallelTaskExecutor__init__ None, w0) in
  _own_executor self = true /\
  (forall q, is_Some (pools w0 !! q) -> pools w !! q = pools w0 !! q) /\
  (forall pool, _executor self = Some pool ->
     pools w0 !! pool = None /\
     exists p, pools w !! pool = Some p /\ _shutdown p = false).
Proof.
  apply owning_invariant; [reflexivity|auto|discriminate].
Qed.

(** Hence a submission through an executor built with no pool has two
    ends only, whatever calls came before: a future is returned, or the
    executor holds no pool and the AttributeError of [None.submit] is
    raised with nothing changed; the refusal of a pool that is shut down
    is never met. *)
Theorem owning_executor_submits_or_has_no_pool (n : nat)
    (cs : list (call E)) w0 task (arguments : loc) cb :
  let (self, w) := make_calls n cs (ParallelTaskExecutor__init__ None, w0) in
  (exists f w',
     ParallelTaskExecutor_execute_task self task arguments cb w =
       (Ret f, w')) \/
  (_executor self = None /\
   ParallelTaskExecutor_execute_task self task arguments cb w =
     (Raise (NoneType_has_no_attribute "submit"), w)).
Proof.
  pose proof (owning_invariant n (pools w0) cs
                (ParallelTaskExecutor__init__ None) w0 eq_refl) as Hinv.
  destruct (make_calls n cs (ParallelTaskExecutor__init__ None, w0))
    as [self w].
  destruct Hinv as (_ & _ & Hlive); [auto|discriminate|].
  unfold ParallelTaskExecutor_execute_task.
  destruct (_executor self) as [pool|] eqn:Hex.
  - left. destruct (Hlive pool eq_refl) as (_ & p & Hp & Hs).
    eapply submit_live; eassumption.
  - right. split; reflexivity.
Qed.

(** Whatever calls are made on an executor built on a supplied pool: its
    attributes stay as built, every other pool stays as it was, and the
    supplied pool keeps its size and its shutdown flag (only its queue
    grows). *)
Theorem borrowing_executor_never_shuts_down (n : nat) pool
    (cs : list (call E)) w0 :
  let (self, w) :=
    make_calls n cs (ParallelTaskExecutor__init__ (Some pool), w0) in
  self = ParallelTaskExecutor__init__ (Some pool) /\
  (forall q, q <> pool -> pools w !! q = pools w0 !! q) /\
  _shutdown <$> pools w !! pool = _shutdown <$> pools w0 !! pool /\
  _max_workers <$> pools w !! pool = _max_workers <$> pools w0 !! pool.
Proof.
  unfold make_calls.
  assert (Hsub : forall wk w,
    (forall q, q <> pool ->
       pools (snd (submit pool wk w)) !! q = pools w !! q) /\
    _shutdown <$> pools (snd (submit pool wk w)) !! pool =
      _shutdown <$> pools w !! pool /\
    _max_workers <$> pools (snd (submit pool wk w)) !! pool =
      _max_workers <$> pools w !! pool).
  { intros wk w. unfold submit.
    destruct (pools w !! pool) as [p|] eqn:Hp; [|cbn; rewrite Hp; auto].
    destruct (_shutdown p) eqn:Hs; [cbn; rewrite Hp; auto|]. cbn.
    split; [intros q Hq; apply lookup_insert_ne; congruence|].
    rewrite lookup_insert_eq. cbn. rewrite Hs. auto. }
  assert (Hgen : forall (cs : list (call E)) w,
    (forall q, q <> pool -> pools w !! q = pools w0 !! q) ->
    _shutdown <$> pools w !! pool = _shutdown <$> pools w0 !! pool ->
    _max_workers <$> pools w !! pool = _max_workers <$> pools w0 !! pool ->
    let (self', w') :=
      fold_left (fun sw c => make_call n c sw) cs
        (ParallelTaskExecutor__init__ (Some pool), w) in
    self' = ParallelTaskExecutor__init__ (Some pool) /\
    (forall q, q <> pool -> pools w' !! q = pools w0 !! q) /\
    _shutdown <$> pools w' !! pool = _shutdown <$> pools w0 !! pool /\
    _max_workers <$> pools w' !! pool = _max_workers <$> pools w0 !! pool).
  { clear cs. induction cs as [|c cs IH]; intros w Hold Hflag Hsize.
    - cbn. auto.
    - cbn [fold_left].
      destruct c as [| |task arguments cb|task arguments result failures cb].
      + cbn. apply IH; assumption.
      + cbn. apply IH; assumption.
      + cbn.
        destruct (Hsub (Work_execute_task task arguments cb) w)
          as (H1 & H2 & H3).
        apply IH.
        * intros q Hq. rewrite H1 by exact Hq. auto.
        * rewrite H2. exact Hflag.
        * rewrite H3. exact Hsize.
      + cbn.
        destruct (Hsub (Work_revert_task task arguments result failures cb) w)
          as (H1 & H2 & H3).
        apply IH.
        * intros q Hq. rewrite H1 by exact Hq. auto.
        * rewrite H2. exact Hflag.
        * rewrite H3. exact Hsize. }
  apply Hgen; auto.
Qed.

End MoreExecutorProperties.

(** ** Runs of several work items *)

Section WorkProperties.

Context {E : Type}.

Implicit Types (task : Task E) (w : world E) (cb : callback) (d : dict).

(** One runner call: one more bind, one more unbind, and no dict lost. *)
Lemma run_work_step (wk : work E) w d :
  heap w !! work_arguments wk = Some d ->
  bind_count (trace (snd (run_work wk w))) = S (bind_count (trace w)) /\
  unbind_count (trace (snd (run_work wk w))) = S (unbind_count (trace w)) /\
  (forall l, is_Some (heap w !! l) -> is_Some (heap (snd (run_work wk w)) !! l)).
Proof.
  intros Hd. destruct wk as [task arguments cb|task arguments result failures cb];
    cbn in Hd; cbn [run_work].
  - destruct (_execute_task_trace task arguments cb w d Hd)
      as (r & w' & middle & Hrun & Htr & Hm).
    destruct (scoped_trace_counts task cb (trace w) middle)
      as (_ & _ & _ & Hb & Hu); [destruct Hm; eauto|].
    assert (Hheap : heap w' = heap w).
    { revert Hrun. rewrite (_execute_task_run _ _ _ _ _ Hd). cbn zeta.
      destruct (bind task _ cb (env w)) as [[[]|eb] e1].
      - destruct (execute task d e1) as [rx e2].
        destruct (unbind task _ cb e2) as [ru e3].
        intros [= <- <-]. reflexivity.
      - destruct (unbind task _ cb e1) as [ru e2].
        intros [= <- <-]. reflexivity. }
    rewrite Hrun. cbn [snd]. rewrite Htr, Hheap. auto.
  - destruct (_revert_task_trace task arguments result failures cb w d Hd)
      as (r & w' & middle & Hrun & Htr & Hm).
    destruct (scoped_trace_counts task cb (trace w) middle)
      as (_ & _ & _ & Hb & Hu); [destruct Hm; eauto|].
    assert (Hheap : exists l kw, heap w !! l = None /\
                                 heap w' = <[l := kw]> (heap w)).
    { exists (fresh (dom (heap w))), (revert_kwargs d result failures).
      split; [apply not_elem_of_dom, is_fresh|].
      revert Hrun. rewrite (_revert_task_run _ _ _ _ _ _ _ Hd). cbn zeta.
      destruct (bind task _ cb (env w)) as [[[]|eb] e1].
      - destruct (revert task _ e1) as [rx e2].
        destruct (unbind task _ cb e2) as [ru e3].
        intros [= <- <-]. reflexivity.
      - destruct (unbind task _ cb e1) as [ru e2].
        intros [= <- <-]. reflexivity. }
    destruct Hheap as (l & kw & Hl & Hheap).
    rewrite Hrun. cbn [snd]. rewrite Htr, Hheap.
    split; [exact Hb|]. split; [exact Hu|].
    intros l' Hl'. rewrite lookup_insert_ne; [exact Hl'|].
    intros ->. rewrite Hl in Hl'. destruct Hl'; discriminate.
Qed.

(** Runner calls made one after the other, whatever each task does, keep
    the binds and the unbinds level: when the arguments of every call
    refer to a dict at the start, the trace has gained one bind and one
    unbind per call at the end. *)
Theorem binds_and_unbinds_stay_level (wks : list (work E)) w :
  Forall (fun wk => is_Some (heap w !! work_arguments wk)) wks ->
  bind_count (trace (run_works wks w)) =
    (bind_count (trace w) + length wks)%nat /\
  unbind_count (trace (run_works wks w)) =
    (unbind_count (trace w) + length wks)%nat.
Proof.
  unfold run_works. revert w.
  induction wks as [|wk wks IH]; intros w Hall.
  - cbn. split; lia.
  - apply Forall_cons in Hall as [[d Hd] Hall]. cbn [fold_left length].
    destruct (run_work_step wk w d Hd) as (Hb & Hu & Hkeep).
    destruct (IH (snd (run_work wk w))) as [IHb IHu].
    { eapply Forall_impl; [exact Hall|]. intros wk' Hwk'. cbn beta.
      apply Hkeep. exact Hwk'. }
    rewrite IHb, IHu, Hb, Hu. split; lia.
Qed.



End WorkProperties.

(** ** The further properties on sample tasks *)

Lemma revert_fault_is_normalized_witness :
  exists w',
    _revert_task failing_task 0%nat (VInt 7) VNone _noop w0 =
      (Ret (failing_task, "reverted", VFailure (Exn ValueError "boom")), w').
Proof.
  destruct (revert_fault_is_normalized failing_task 0%nat (VInt 7) VNone
              _noop w0 args_x1 [("update_progress", _noop)]
              [("update_progress", _noop)] [] (Exn ValueError "boom"))
    as [(w' & Hrun & _) _]; try reflexivity.
  exists w'. exact Hrun.
Defined.

Lemma non_Exception_fault_propagates_witness :
  exists w',
    _execute_task interrupted_task 0%nat _noop w0 =
      (Raise (Exn KeyboardInterrupt ""), w') /\
    futs w' = futs w0.
Proof.
  destruct (non_Exception_fault_propagates interrupted_task 0%nat _noop w0
              args_x1 [("update_progress", _noop)]
              [("update_progress", _noop)] [] (Exn KeyboardInterrupt ""))
    as (w' & Hrun & _ & _ & _ & Hf); try reflexivity.
  exists w'. split; [exact Hrun|exact Hf].
Defined.

(** [stopping_task] raises StopIteration from [unbind]: with PEP 479 the
    caller gets the RuntimeError made of it. *)
Lemma unbind_fault_masks_the_operation_witness :
  (exists w',
     _execute_task sticky_failing_task 0%nat _noop w0 =
       (Raise (Exn RuntimeError "cannot unbind"), w')) /\
  (exists w',
     _revert_task sticky_task 0%nat (VInt 42) VNone _noop w0 =
       (Raise (Exn RuntimeError "cannot unbind"), w')) /\
  (exists w',
     _execute_task stopping_task 0%nat _noop w0 =
       (Raise (Exn RuntimeError "generator raised StopIteration"), w')).
Proof.
  split; [|split].
  - destruct (proj1 unbind_fault_masks_the_operation sticky_failing_task
                0%nat _noop w0 args_x1 [("update_progress", _noop)]
                [("update_progress", _noop)] [("update_progress", _noop)]
                (Raise (Exn ValueError "boom"))
                (Exn RuntimeError "cannot unbind"))
      as (_ & _ & w' & Hrun & _); try reflexivity.
    exists w'. exact Hrun.
  - destruct (proj2 unbind_fault_masks_the_operation sticky_task
                0%nat (VInt 42) VNone _noop w0 args_x1
                [("update_progress", _noop)]
                [("update_progress", _noop)] [("update_progress", _noop)]
                (Ret VNone) (Exn RuntimeError "cannot unbind"))
      as (_ & _ & w' & Hrun & _); try reflexivity.
    exists w'. exact Hrun.
  - destruct (proj1 unbind_fault_masks_the_operation stopping_task
                0%nat _noop w0 args_x1 [("update_progress", _noop)]
                [("update_progress", _noop)] [("update_progress", _noop)]
                (Ret (VInt 42)) (Exn StopIteration ""))
      as (_ & _ & w' & Hrun & _); try reflexivity.
    exists w'. exact Hrun.
Defined.

Lemma execute_gets_the_arguments_as_they_are_witness :
  exists r w',
    _execute_task answer_task 0%nat _noop w0 = (r, w') /\
    heap w' = heap w0 /\
    trace w' =
      [CallBind answer_task "update_progress" _noop;
       CallExecute answer_task args_x1;
       CallUnbind answer_task "update_progress" _noop].
Proof.
  destruct (execute_gets_the_arguments_as_they_are answer_task 0%nat _noop
              w0 args_x1)
    as (r & w' & Hrun & Hheap & _ & _ & Htrace); [reflexivity|].
  exists r, w'. split; [exact Hrun|]. split; [exact Hheap|].
  apply (Htrace [("update_progress", _noop)]). reflexivity.
Defined.

Lemma revert_kwargs_shadow_the_arguments_witness :
  exists r w' (kwargs : loc) (kw : dict),
    _revert_task broken_task 0%nat (VInt 7) (VStr "f") _noop w0 = (r, w') /\
    heap w' = <[kwargs := kw]> (heap w0) /\
    kw !! "result" = Some (VInt 7) /\
    kw !! "flow_failures" = Some (VStr "f") /\
    kw !! "x" = Some (VInt 1).
Proof.
  destruct (revert_kwargs_shadow_the_arguments broken_task 0%nat (VInt 7)
              (VStr "f") _noop w0 args_x1)
    as (r & w' & kwargs & kw & Hrun & _ & Hheap & H1 & H2 & H3 & _);
    [reflexivity|].
  exists r, w', kwargs, kw. split; [exact Hrun|]. split; [exact Hheap|].
  split; [exact H1|]. split; [exact H2|].
  rewrite H3 by discriminate. reflexivity.
Defined.

Lemma serial_futures_are_new_witness :
  exists f w',
    SerialTaskExecutor_execute_task SerialTaskExecutor__init__ answer_task
      0%nat _noop w0 = (Ret f, w') /\
    futs w0 !! f = None /\ done w' f = true.
Proof.
  eexists _, _. split; [vm_compute; reflexivity|].
  destruct (proj1 serial_futures_are_new SerialTaskExecutor__init__
              answer_task 0%nat _noop w0 0%nat
              (snd (SerialTaskExecutor_execute_task SerialTaskExecutor__init__
                      answer_task 0%nat _noop w0)))
    as (Hnew & Hdone & _); [vm_compute; reflexivity|].
  split; [exact Hnew|exact Hdone].
Defined.

Lemma serial_futures_are_distinct_witness :
  exists f1 w1 f2 w2,
    SerialTaskExecutor_execute_task SerialTaskExecutor__init__ answer_task
      0%nat _noop w0 = (Ret f1, w1) /\
    SerialTaskExecutor_execute_task SerialTaskExecutor__init__ failing_task
      0%nat _noop w1 = (Ret f2, w2) /\
    f1 <> f2 /\ done w2 f1 = true /\ done w2 f2 = true.
Proof.
  eexists _, _, _, _.
  split; [vm_compute; reflexivity|]. split; [vm_compute; reflexivity|].
  eapply (serial_futures_are_distinct SerialTaskExecutor__init__
            answer_task failing_task 0%nat 0%nat _noop _noop w0);
    vm_compute; reflexivity.
Defined.

Lemma binds_and_unbinds_stay_level_witness :
  let wks := [Work_execute_task sticky_failing_task 0%nat _noop;
              Work_revert_task broken_task 0%nat VNone VNone _noop;
              Work_execute_task interrupted_task 0%nat _noop] in
  bind_count (trace (run_works wks w0)) = 3%nat /\
  unbind_count (trace (run_works wks w0)) = 3%nat.
Proof.
  cbv zeta.
  apply (binds_and_unbinds_stay_level
           [Work_execute_task sticky_failing_task 0%nat _noop;
            Work_revert_task broken_task 0%nat VNone VNone _noop;
            Work_execute_task interrupted_task 0%nat _noop] w0).
  repeat constructor; exists args_x1; reflexivity.
Defined.


(** Without PEP 479 a StopIteration of [unbind] is taken for the end of the
    generator: the context manager swallows it, and the exception of the
    block with it.  [_execute_task] then returns the result of the block,
    or fails on reading [result], which the block never assigned;
    [_revert_task] returns the result it was given. *)
Example stopped_unbind_on_a_legacy_interpreter :
  fst (_execute_task stopping_task 0%nat _noop w0_legacy) =
    Ret (stopping_task, "executed", VInt 42) /\
  fst (_execute_task interrupted_stopping_task 0%nat _noop w0_legacy) =
    Raise (Exn UnboundLocalError
             "local variable 'result' referenced before assignment") /\
  fst (_revert_task interrupted_stopping_task 0%nat (VInt 7) VNone _noop
         w0_legacy) =
    Ret (interrupted_stopping_task, "reverted", VInt 7) /\
  fst (_execute_task interrupted_stopping_task 0%nat _noop w0) =
    Raise (Exn RuntimeError "generator raised StopIteration").
Proof. repeat split; vm_compute; reflexivity. Qed.
